(** * frappe-connector: a shallow embedding of the client SDK

    The development follows the TypeScript sources:
    - [lib/utils/axios-config.ts]: [getCommonHeaders],
      [getInstanceWithKeys], [getInstanceWithCredentials];
    - [lib/frappe/index.ts]: the [Frappe] facade (constructor, [login]);
    - [lib/db/index.ts]: the [FrappeDB] document operations;
    - [lib/file/index.ts]: [FrappeUpload.upload].

    JavaScript values are an inductive type, objects used as maps are
    [gmap string _], asynchronous code is a state-and-exception monad whose
    state is the log of the HTTP requests issued so far, and the HTTP
    transport is an oracle consulted on every request. *)

From Stdlib Require Import ZArith String Ascii List Bool.
From Stdlib Require Import DecimalString.
From stdpp Require Import base option list strings gmap fin_maps.

Set Warnings "-register-all".

Local Open Scope string_scope.
Local Open Scope list_scope.
Local Open Scope Z_scope.

(** ** JavaScript values *)

Module JS.

(** JSON-like values. Numbers are the integers (the SDK only forwards
    numbers, it never computes on them); property order of objects is kept,
    as [Object.keys] and [JSON.stringify] observe it. *)
Inductive value : Type :=
| VUndefined
| VNull
| VBool (b : bool)
| VNum (n : Z)
| VStr (s : string)
| VArr (l : list value)
| VObj (l : list (string * value)).

(** [a ?? b] *)
Definition nullish (v : value) : bool :=
  match v with
  | VUndefined | VNull => true
  | _ => false
  end.

Definition coalesce (a b : value) : value :=
  if nullish a then b else a.

(** Truthiness of a string ([if (s)]): non-empty. *)
Definition truthy_str (s : string) : bool :=
  match s with
  | EmptyString => false
  | String _ _ => true
  end.

(** Truthiness of an optional string argument ([undefined] is falsy). *)
Definition truthy_opt (o : option string) : bool :=
  match o with
  | Some s => truthy_str s
  | None => false
  end.

(** Truthiness of an optional boolean argument. *)
Definition truthy_flag (o : option bool) : bool :=
  match o with
  | Some b => b
  | None => false
  end.

(** [`${x}`] on an optional string: [undefined] prints as its name. *)
Definition template (o : option string) : string :=
  match o with
  | Some s => s
  | None => "undefined"
  end.

(** Decimal rendering of an integer, as [String(n)] does for the integers
    it prints digit by digit (those below 10^21 in absolute value). *)
Definition dec (n : Z) : string := NilZero.string_of_int (Z.to_int n).

(** First binding of a key in an object's property list. *)
Fixpoint assoc (k : string) (l : list (string * value)) : option value :=
  match l with
  | [] => None
  | (k', v) :: l' => if String.eqb k k' then Some v else assoc k l'
  end.

(** Characters of a string as one-character strings. *)
Fixpoint chars (s : string) : list string :=
  match s with
  | EmptyString => []
  | String c s' => String c EmptyString :: chars s'
  end.

(** Own enumerable properties, as the object spread [{...v}] copies them:
    the bindings of an object, the indexed elements of an array, the
    indexed characters of a string, nothing for the other values. *)
Definition own_props (v : value) : list (string * value) :=
  match v with
  | VObj l => l
  | VArr l => imap (fun i x => (dec (Z.of_nat i), x)) l
  | VStr s => imap (fun i c => (dec (Z.of_nat i), VStr c)) (chars s)
  | _ => []
  end.

(** [{...base, ...v}]: properties are assigned in order, later ones win. *)
Definition spread (base : gmap string value) (v : value) : gmap string value :=
  foldl (fun m p => <[p.1 := p.2]> m) base (own_props v).

(** [v.k] for a named (non-index) property [k]. [None] is the [TypeError]
    raised on [undefined] and [null]. *)
Definition member (v : value) (k : string) : option value :=
  match v with
  | VUndefined | VNull => None
  | VObj l => Some (default VUndefined (assoc k l))
  | VArr l =>
      Some (if String.eqb k "length" then VNum (Z.of_nat (length l)) else VUndefined)
  | VStr s =>
      Some (if String.eqb k "length" then VNum (Z.of_nat (String.length s)) else VUndefined)
  | VBool _ | VNum _ => Some VUndefined
  end.

(** The property [k] of a value that has properties: [undefined] when it
    is missing. *)
Definition prop (v : value) (k : string) : value :=
  default VUndefined (member v k).

(** [v[0]]; [None] is the [TypeError] on [undefined] and [null]. *)
Definition first (v : value) : option value :=
  match v with
  | VUndefined | VNull => None
  | VArr l => Some (default VUndefined (head l))
  | VStr s => Some (default VUndefined (VStr <$> head (chars s)))
  | VObj l => Some (default VUndefined (assoc "0" l))
  | VBool _ | VNum _ => Some VUndefined
  end.

(** [v > 0] for the values a [length] read produces: numbers compare,
    [undefined] converts to NaN and compares false. On the remaining values
    (a [length] property holding a string, an array or an object) the
    conversion of the operand to a number is left out and the comparison
    is taken as false. *)
Definition gt_zero (v : value) : bool :=
  match v with
  | VNum n => 0 <? n
  | VBool b => b
  | _ => false
  end.

(** *** [JSON.stringify] *)

Definition dquote : ascii := "034"%char.
Definition backslash : ascii := "\"%char.

Definition hex_lower (n : N) : ascii :=
  ascii_of_N (if (n <? 10)%N then 48 + n else 87 + n)%N.

Definition hex_upper (n : N) : ascii :=
  ascii_of_N (if (n <? 10)%N then 48 + n else 55 + n)%N.

(** Escape of one character inside a JSON string literal. *)
Definition json_escape (c : ascii) : string :=
  let n := N_of_ascii c in
  if (n =? 34)%N then String backslash (String dquote EmptyString)
  else if (n =? 92)%N then String backslash (String backslash EmptyString)
  else if (n =? 8)%N then String backslash "b"
  else if (n =? 9)%N then String backslash "t"
  else if (n =? 10)%N then String backslash "n"
  else if (n =? 12)%N then String backslash "f"
  else if (n =? 13)%N then String backslash "r"
  else if (n <? 32)%N then
    String backslash ("u00" +:+ String (hex_lower (n / 16)) (String (hex_lower (n mod 16)) EmptyString))
  else String c EmptyString.

Fixpoint json_escape_all (s : string) : string :=
  match s with
  | EmptyString => EmptyString
  | String c s' => json_escape c +:+ json_escape_all s'
  end.

Definition json_quote (s : string) : string :=
  String dquote (json_escape_all s +:+ String dquote EmptyString).

Definition join (sep : string) (l : list string) : string :=
  String.concat sep l.

(** [JSON.stringify(v)]; [None] is the result [undefined]. Inside an array
    [undefined] prints as [null], inside an object the property is left
    out. *)
Fixpoint JSON_stringify (v : value) : option string :=
  match v with
  | VUndefined => None
  | VNull => Some "null"
  | VBool b => Some (if b then "true" else "false")
  | VNum n => Some (dec n)
  | VStr s => Some (json_quote s)
  | VArr l =>
      Some ("[" +:+ join "," (map (fun x => default "null" (JSON_stringify x)) l) +:+ "]")
  | VObj l =>
      Some ("{" +:+ join ","
              (omap (fun p => (fun s => json_quote p.1 +:+ ":" +:+ s) <$> JSON_stringify p.2) l)
            +:+ "}")
  end.

(** [JSON.stringify] of an array is always a string. *)
Definition stringify_array (l : list value) : string :=
  default "null" (JSON_stringify (VArr l)).

(** [String(v)]: an array prints its elements separated by commas, the
    nullish ones as nothing; a plain object prints as a fixed tag. *)
Fixpoint to_string (v : value) : string :=
  match v with
  | VUndefined => "undefined"
  | VNull => "null"
  | VBool b => if b then "true" else "false"
  | VNum n => dec n
  | VStr s => s
  | VArr l => join "," (map (fun x => if nullish x then EmptyString else to_string x) l)
  | VObj _ => "[object Object]"
  end.

(** *** [encodeURIComponent] *)

(** Characters left as they are: letters, digits and [-_.!~*'()]. *)
Definition uri_unreserved (c : ascii) : bool :=
  let n := N_of_ascii c in
  ((48 <=? n) && (n <=? 57) || (65 <=? n) && (n <=? 90) || (97 <=? n) && (n <=? 122))%N
  || existsb (N.eqb n) [45; 95; 46; 33; 126; 42; 39; 40; 41]%N.

Definition percent (c : ascii) : string :=
  let n := N_of_ascii c in
  String "%" (String (hex_upper (n / 16)) (String (hex_upper (n mod 16)) EmptyString)).

(** Strings are sequences of UTF-8 bytes, so every other byte is
    percent-encoded on its own. *)
Fixpoint encodeURIComponent (s : string) : string :=
  match s with
  | EmptyString => EmptyString
  | String c s' =>
      (if uri_unreserved c then String c EmptyString else percent c)
      +:+ encodeURIComponent s'
  end.

(** [s.startsWith(p)] *)
Definition startsWith (s p : string) : bool := String.prefix p s.

End JS.

Import JS.

(** ** HTTP requests, responses and the transport *)

Inductive Method := GET | POST | PUT.

(** What [axios.create] is given: a client is its configuration. *)
Record AxiosInstance := mkInstance {
  baseURL : option string;
  defaultHeaders : gmap string string;
  withCredentials : bool;
}.

(** The library's default instance, used by [axios.post] in the login. *)
Definition axios : AxiosInstance :=
  {| baseURL := None; defaultHeaders := ∅; withCredentials := false |}.

(** The browser's [File]: only its name is read by the SDK. *)
Record File := mkFile {
  file_name : string;
  file_bytes : string;
}.

(** An entry of a [FormData]: [append(key, file, filename)] or
    [append(key, v)]. Entries keep the order of the calls. *)
Inductive FormValue :=
| FormFile (f : File) (filename : string)
| FormField (v : value).

Inductive Payload :=
| NoData
| Json (v : value)
| Multipart (form : list (string * FormValue)).

Record Request := mkRequest {
  req_via : AxiosInstance;
  req_method : Method;
  req_url : string;
  req_params : gmap string value;
  req_data : Payload;
  req_headers : gmap string string;
}.

(** [res.headers['set-cookie']] is the only response header the SDK reads. *)
Record Response := mkResponse {
  status : Z;
  statusText : string;
  set_cookie : option (list string);
  data : value;
}.

(** What the transport does with a request: the promise resolves with a
    response, or rejects with an error that carries the remote response
    ([error.response]) or none (no answer reached the client). *)
Inductive NetOutcome :=
| Resolved (res : Response)
| Rejected (response : option Response).

(** The transport is an oracle: it sees the requests made before. *)
Definition Transport := list Request -> Request -> NetOutcome.

(** ** Exceptions and asynchronous computations *)

(** What the SDK throws or lets through. *)
Inductive exn :=
| JsError (message : string)             (* [new Error(message)] *)
| TypeError                              (* a property read on undefined or null *)
| ReferenceError                         (* a read of an undeclared global *)
| AxiosError (response : option Response) (* a rejected request *)
| Thrown (o : gmap string value).        (* [throw { ... }] *)

Inductive completion (A : Type) :=
| Normal (a : A)
| Throw (e : exn).
Arguments Normal {A} a.
Arguments Throw {A} e.

#[export] Instance completion_ret : MRet completion := fun A a => Normal a.
#[export] Instance completion_bind : MBind completion := fun A B f m =>
  match m with
  | Normal a => f a
  | Throw e => Throw e
  end.

(** An asynchronous computation threads the log of the requests issued so
    far and ends with a value (fulfilled) or an exception (rejected). *)
Definition Async (A : Type) : Type := list Request -> completion A * list Request.

#[export] Instance async_ret : MRet Async := fun A a log => (Normal a, log).
#[export] Instance async_bind : MBind Async := fun A B f m log =>
  match m log with
  | (Normal a, log') => f a log'
  | (Throw e, log') => (Throw e, log')
  end.

Definition throw {A} (e : exn) : Async A := fun log => (Throw e, log).

(** Synchronous code run inside an asynchronous function. *)
Definition sync {A} (c : completion A) : Async A := fun log => (c, log).

(** A property read that throws on [undefined] and [null]. *)
Definition read (v : value) (k : string) : completion value :=
  match member v k with
  | Some x => Normal x
  | None => Throw TypeError
  end.

(** Issue one request: it is logged, and the transport decides. *)
Definition send (net : Transport) (req : Request) : Async Response := fun log =>
  (match net log req with
   | Resolved res => Normal res
   | Rejected r => Throw (AxiosError r)
   end, log ++ [req]).

(** [p.then(f)]: [f] runs on fulfilment; what it throws rejects the result. *)
Definition and_then {A B} (p : Async A) (f : A -> completion B) : Async B :=
  a ← p; sync (f a).

(** [p.catch(h)]: [h] runs on rejection. *)
Definition catch {A} (p : Async A) (h : exn -> completion A) : Async A := fun log =>
  match p log with
  | (Normal a, log') => (Normal a, log')
  | (Throw e, log') => (h e, log')
  end.

(** [error.response] in a catch handler. Only the transport's errors have
    the property; on what else reaches a handler (the [TypeError] of a
    then-callback) the read is [undefined]. *)
Definition error_response (e : exn) : option Response :=
  match e with
  | AxiosError r => r
  | _ => None
  end.

(** ** The ambient browser context *)

Record Location := mkLocation {
  origin : string;
  hostname : string;
}.

Record Window := mkWindow {
  location : Location;
  csrf_token : option string;
}.

(** [window] is [None] where no such global is declared (outside a browser);
    [document] tells whether [typeof document !== 'undefined']. *)
Record Env := mkEnv {
  window : option Window;
  document : bool;
}.

(** ** lib/utils/axios-config.ts *)

Definition getCommonHeaders (env : Env) (baseURL : string)
    (customHeaders : option (gmap string string)) : completion (gmap string string) :=
  let headers : gmap string string :=
    default ∅ customHeaders
    ∪ <["Accept" := "application/json"]>
        (<["Content-Type" := "application/json; charset=utf-8"]> ∅) in
  let headers :=
    match window env with
    | Some w =>
        if document env
        then if truthy_str baseURL && String.eqb baseURL (origin (location w))
             then <["X-Frappe-Site-Name" := hostname (location w)]> headers
             else headers
        else headers
    | None => headers
    end in
  match window env with
  | None => Throw ReferenceError
  | Some w =>
      match csrf_token w with
      | Some token =>
          if truthy_str token && negb (String.eqb token "{{ csrf_token }}")
          then Normal (<["X-Frappe-CSRF-Token" := token]> headers)
          else Normal headers
      | None => Normal headers
      end
  end.

Definition getInstanceWithKeys (env : Env) (url : string)
    (apiKey secretKey : option string) (headers : option (gmap string string))
  : completion AxiosInstance :=
  let authorization := "token " +:+ template apiKey +:+ ":" +:+ template secretKey in
  common ← getCommonHeaders env url headers;
  Normal {| baseURL := Some url;
            defaultHeaders := common ∪ <["Authorization" := authorization]> ∅;
            withCredentials := true |}.

(** An optional string argument as a value of a JSON body. *)
Definition of_opt (o : option string) : value :=
  match o with
  | Some s => VStr s
  | None => VUndefined
  end.

Definition login_failure (url : string) : exn :=
  JsError ("Failed to login to " +:+ url).

(** [axios.post(url + '/api/method/login', { usr, pwd }, { headers })] *)
Definition login_request (url : string) (username password : option string)
    (request_headers : gmap string string) : Request :=
  {| req_via := axios;
     req_method := POST;
     req_url := url +:+ "/api/method/login";
     req_params := ∅;
     req_data := Json (VObj [("usr", of_opt username); ("pwd", of_opt password)]);
     req_headers := request_headers |}.

Definition getInstanceWithCredentials (env : Env) (net : Transport) (url : string)
    (username password : option string) (headers : option (gmap string string))
  : Async AxiosInstance :=
  request_headers ← sync (getCommonHeaders env url headers);
  res ← send net (login_request url username password request_headers);
  if status res =? 200 then
    match set_cookie res ≫= List.find (fun cookie => startsWith cookie "sid=") with
    | Some sidCookie =>
        if truthy_str sidCookie then
          common ← sync (getCommonHeaders env url headers);
          mret {| baseURL := Some url;
                  defaultHeaders := common ∪ <["Cookie" := sidCookie]> ∅;
                  withCredentials := false |}
        else throw (login_failure url)
    | None => throw (login_failure url)
    end
  else throw (login_failure url).

(** ** lib/frappe/index.ts *)

Record FrappeOptions := mkOptions {
  opt_url : string;
  opt_username : option string;
  opt_password : option string;
  opt_apiKey : option string;
  opt_secretKey : option string;
  opt_headers : option (gmap string string);
}.

(** [this.instance]: the empty object the constructor starts with, or a
    client. *)
Inductive Client :=
| NoClient
| Ready (c : AxiosInstance).

Module Frappe.

Record t := mk {
  url : string;
  username : option string;
  password : option string;
  apiKey : option string;
  secretKey : option string;
  headers : option (gmap string string);
  instance : Client;
}.

Definition set_instance (this : t) (c : Client) : t :=
  {| url := url this; username := username this; password := password this;
     apiKey := apiKey this; secretKey := secretKey this; headers := headers this;
     instance := c |}.

Definition constructor (env : Env) (options : FrappeOptions) : completion t :=
  let this := {| url := opt_url options;
                 username := opt_username options;
                 password := opt_password options;
                 apiKey := opt_apiKey options;
                 secretKey := opt_secretKey options;
                 headers := opt_headers options;
                 instance := NoClient |} in
  if truthy_opt (apiKey this) && truthy_opt (secretKey this) then
    c ← getInstanceWithKeys env (url this) (apiKey this) (secretKey this) (headers this);
    Normal (set_instance this (Ready c))
  else Normal this.

Definition no_need_to_login : string :=
  "You don't need to login if you have API key and secret key".

Definition need_credentials : string :=
  "You need to provide username and password or API key and secret key".

(** [login] assigns [this.instance]; the updated facade is its result. *)
Definition login (env : Env) (net : Transport) (this : t) : Async t :=
  if truthy_opt (username this) && truthy_opt (password this) then
    c ← getInstanceWithCredentials env net (url this) (username this) (password this) (headers this);
    mret (set_instance this (Ready c))
  else if truthy_opt (apiKey this) && truthy_opt (secretKey this) then
    throw (JsError no_need_to_login)
  else
    throw (JsError need_credentials).

(** [client()], and the client [db()] and [file()] hand to [FrappeDB] and
    [FrappeUpload]: the instance held when the accessor is called. *)
Definition client (this : t) : Client := instance this.

End Frappe.

(** [this.instance.get(...)] and the like on the empty object the facade
    starts with: the method is [undefined] and the call throws. *)
Definition via {A} (inst : Client) (k : AxiosInstance -> Async A) : Async A :=
  match inst with
  | Ready c => k c
  | NoClient => throw TypeError
  end.

(** ** lib/db/index.ts *)

Module FrappeDB.

Inductive Order := asc | desc.

Definition order_name (o : Order) : string :=
  match o with
  | asc => "asc"
  | desc => "desc"
  end.

Record OrderBy := mkOrderBy {
  field : string;
  order : option Order;
}.

(** Modelled from the spec: the [Filter] type is declared in lib/db/types.ts,
    which is not among the sources; a filter expression is a
    field/operator/value triple, written as a three-element array. *)
Record Filter := mkFilter {
  filter_field : string;
  filter_operator : string;
  filter_value : value;
}.

Definition filter_value_of (f : Filter) : value :=
  VArr [VStr (filter_field f); VStr (filter_operator f); filter_value f].

(** The properties [getDocList] destructures from its [args]. *)
Record GetDocListArgs := mkListArgs {
  fields : option (list string);
  filters : option (list Filter);
  orFilters : option (list Filter);
  orderBy : option OrderBy;
  limit : option Z;
  limit_start : option Z;
  groupBy : option string;
  asDict : option bool;
}.

(** The properties of [GetLastDocArgs], as the README lists them. *)
Record GetLastDocArgs := mkLastArgs {
  last_filters : option (list Filter);
  last_orFilters : option (list Filter);
  last_orderBy : option OrderBy;
}.

(** A document to create or update: its doctype and its other fields. *)
Record FrappeDocParams := mkDoc {
  doc_doctype : string;
  doc_fields : list (string * value);
}.

Definition doc_value (doc : FrappeDocParams) : value :=
  VObj (("doctype", VStr (doc_doctype doc)) :: doc_fields doc).

Definition of_num (o : option Z) : value :=
  match o with
  | Some n => VNum n
  | None => VUndefined
  end.

(** [x ? JSON.stringify(x) : undefined]: an array is truthy, also when it
    is empty. *)
Definition stringify_opt {A} (to_value : A -> value) (o : option (list A)) : value :=
  match o with
  | Some l => VStr (stringify_array (to_value <$> l))
  | None => VUndefined
  end.

(** The error every catch handler of the class throws. [fallback] tells
    whether the message is [data.message ?? message] or [message] alone. *)
Definition normalized (fallback : bool) (message : string) (response : Response)
  : completion (gmap string value) :=
  let body := data response in
  let o := spread ∅ body in
  let o := <["httpStatus" := VNum (status response)]> o in
  let o := <["httpStatusText" := VStr (statusText response)]> o in
  msg ← (if fallback
         then m ← read body "message"; Normal (coalesce m (VStr message))
         else Normal (VStr message));
  let o := <["message" := msg]> o in
  exception ← read body "exception";
  exc_type ← read body "exc_type";
  Normal (<["exception" := coalesce (coalesce exception exc_type) (VStr EmptyString)]> o).

(** The catch handler: [error.response] is read without a test, so an
    error without a response makes the handler itself fail. *)
Definition handler {A} (fallback : bool) (message : string) (error : exn) : completion A :=
  match error_response error with
  | None => Throw TypeError
  | Some response =>
      match normalized fallback message response with
      | Normal o => Throw (Thrown o)
      | Throw e => Throw e
      end
  end.

Definition request (c : AxiosInstance) (m : Method) (url : string)
    (params : gmap string value) (body : Payload) : Request :=
  {| req_via := c; req_method := m; req_url := url; req_params := params;
     req_data := body; req_headers := ∅ |}.

(** [(res) => res.data.data] *)
Definition res_data_data (res : Response) : completion value := read (data res) "data".

Section Operations.

Context (net : Transport) (inst : Client).

Definition getDoc (doctype : string) (docname : option string) : Async value :=
  let docname := default EmptyString docname in
  via inst (fun c =>
    catch
      (and_then
         (send net (request c GET
                      ("/api/resource/" +:+ doctype +:+ "/" +:+ encodeURIComponent docname)
                      ∅ NoData))
         res_data_data)
      (handler false "There was an error while fetching the document.")).

Definition getDocList_params (args : option GetDocListArgs) : gmap string value :=
  match args with
  | None => ∅
  | Some a =>
      let orderByString :=
        match orderBy a with
        | Some o => field o +:+ " " +:+ order_name (default asc (order o))
        | None => EmptyString
        end in
      list_to_map
        [("fields", stringify_opt VStr (fields a));
         ("filters", stringify_opt filter_value_of (filters a));
         ("or_filters", stringify_opt filter_value_of (orFilters a));
         ("order_by", VStr orderByString);
         ("group_by", of_opt (groupBy a));
         ("limit", of_num (limit a));
         ("limit_start", of_num (limit_start a));
         ("as_dict", VBool (default true (asDict a)))]
  end.

Definition getDocList (doctype : string) (args : option GetDocListArgs) : Async value :=
  let params := getDocList_params args in
  via inst (fun c =>
    catch
      (and_then
         (send net (request c GET ("/api/resource/" +:+ doctype) params NoData))
         res_data_data)
      (handler false "There was an error while fetching the documents.")).

Definition createDoc (doc : FrappeDocParams) : Async value :=
  via inst (fun c =>
    catch
      (and_then
         (send net (request c POST ("/api/resource/" +:+ doc_doctype doc) ∅
                      (Json (doc_value doc))))
         res_data_data)
      (handler true "There was an error while creating the document.")).

(** [post('', { params })]: the command travels in the body, under the key
    [params]. *)
Definition command (c : AxiosInstance) (params : list (string * value)) : Request :=
  request c POST EmptyString ∅ (Json (VObj [("params", VObj params)])).

Definition createManyDocs (docs : list FrappeDocParams) : Async value :=
  via inst (fun c =>
    catch
      (and_then
         (send net (command c [("cmd", VStr "frappe.client.insert_many");
                               ("docs", VArr (doc_value <$> docs))]))
         res_data_data)
      (handler true "There was an error while creating the documents.")).

(** [docname] is [string | null]; [None] is [null], printed by the template
    as its name. *)
Definition updateDoc (doctype : string) (docname : option string)
    (values : list (string * value)) : Async value :=
  let name :=
    if truthy_opt docname then encodeURIComponent (default EmptyString docname)
    else match docname with
         | Some s => s
         | None => "null"
         end in
  via inst (fun c =>
    catch
      (and_then
         (send net (request c PUT ("/api/resource/" +:+ doctype +:+ "/" +:+ name) ∅
                      (Json (VObj values))))
         res_data_data)
      (handler true "There was an error while updating the document.")).

Definition updateManyDocs (docs : list FrappeDocParams) : Async value :=
  via inst (fun c =>
    catch
      (and_then
         (send net (command c [("cmd", VStr "frappe.client.bulk_update");
                               ("docs", VArr (doc_value <$> docs))]))
         res_data_data)
      (handler true "There was an error while updating the documents.")).

Definition submitDoc (doctype name : string) : Async value :=
  via inst (fun c =>
    catch
      (and_then
         (send net (command c [("cmd", VStr "frappe.client.submit");
                               ("doc", VObj [("doctype", VStr doctype); ("name", VStr name)])]))
         res_data_data)
      (handler true "There was an error while submitting the document.")).

Definition cancelDoc (doctype name : string) : Async value :=
  via inst (fun c =>
    catch
      (and_then
         (send net (command c [("cmd", VStr "frappe.client.cancel");
                               ("doctype", VStr doctype);
                               ("name", VStr name)]))
         res_data_data)
      (handler true "There was an error while cancelling the document.")).

Definition renameDoc (doctype old_name new_name : string) : Async value :=
  via inst (fun c =>
    catch
      (and_then
         (send net (command c [("cmd", VStr "frappe.client.rename_doc");
                               ("doctype", VStr doctype);
                               ("old_name", VStr old_name);
                               ("new_name", VStr new_name)]))
         res_data_data)
      (handler true "There was an error while renaming the document.")).

(** [name] is [string | null | undefined]; the whole body is returned. *)
Definition deleteDoc (doctype : string) (name : value) : Async value :=
  via inst (fun c =>
    catch
      (and_then
         (send net (request c POST EmptyString ∅
                      (Json (VObj [("cmd", VStr "frappe.client.delete");
                                   ("doctype", VStr doctype);
                                   ("name", name)]))))
         (fun res => Normal (data res)))
      (handler false "There was an error while deleting the document.")).

Definition getCount_params (doctype : string) (filters : option (list Filter))
    (cache debug : option bool) : gmap string value :=
  let cache := default false cache in
  let debug := default false debug in
  let params : gmap string value :=
    list_to_map [("cmd", VStr "frappe.client.get_count");
                 ("doctype", VStr doctype);
                 ("filters", VArr [])] in
  let params := if cache then <["cache" := VBool cache]> params else params in
  let params := if debug then <["debug" := VBool debug]> params else params in
  match filters with
  | Some l => <["filters" := stringify_opt filter_value_of filters]> params
  | None => params
  end.

Definition getCount (doctype : string) (filters : option (list Filter))
    (cache debug : option bool) : Async value :=
  let params := getCount_params doctype filters cache debug in
  via inst (fun c =>
    catch
      (and_then
         (send net (request c GET EmptyString params NoData))
         (fun res => read (data res) "message"))
      (handler false "There was an error while getting the count.")).

(** [{ ...queryArgs, ...args }]: a property of [args] that is given wins. *)
Definition merge_args (queryArgs args : GetLastDocArgs) : GetLastDocArgs :=
  {| last_filters := from_option Some (last_filters queryArgs) (last_filters args);
     last_orFilters := from_option Some (last_orFilters queryArgs) (last_orFilters args);
     last_orderBy := from_option Some (last_orderBy queryArgs) (last_orderBy args) |}.

(** The arguments [getLastDoc] passes to [getDocList], for a caller's
    object that has the declared properties and no other. *)
Definition getLastDoc_query (args : option GetLastDocArgs) : GetDocListArgs :=
  let queryArgs :=
    {| last_filters := None; last_orFilters := None;
       last_orderBy := Some {| field := "creation"; order := Some desc |} |} in
  let queryArgs :=
    match args with
    | Some a => merge_args queryArgs a
    | None => queryArgs
    end in
  {| fields := Some ["name"];
     filters := last_filters queryArgs;
     orFilters := last_orFilters queryArgs;
     orderBy := last_orderBy queryArgs;
     limit := Some 1;
     limit_start := None;
     groupBy := None;
     asDict := None |}.

(** [getDocLists[0].name] as the [docname] argument of [getDoc]: a string,
    or [undefined], which the parameter's default replaces. A name of
    another type reaches [encodeURIComponent], which converts it. *)
Definition name_argument (v : value) : option string :=
  match v with
  | VUndefined => None
  | _ => Some (to_string v)
  end.

Definition getLastDoc (doctype : string) (args : option GetLastDocArgs) : Async value :=
  getDocLists ← getDocList doctype (Some (getLastDoc_query args));
  len ← sync (read getDocLists "length");
  if gt_zero len then
    match first getDocLists ≫= (fun doc => member doc "name") with
    | Some name => getDoc doctype (name_argument name)
    | None => throw TypeError
    end
  else mret (VObj []).

End Operations.

(** The calls a caller can make on the client, with their arguments. *)
Inductive Call :=
| GetDoc (doctype : string) (docname : option string)
| GetDocList (doctype : string) (args : option GetDocListArgs)
| CreateDoc (doc : FrappeDocParams)
| CreateManyDocs (docs : list FrappeDocParams)
| UpdateDoc (doctype : string) (docname : option string) (values : list (string * value))
| UpdateManyDocs (docs : list FrappeDocParams)
| SubmitDoc (doctype name : string)
| CancelDoc (doctype name : string)
| RenameDoc (doctype old_name new_name : string)
| DeleteDoc (doctype : string) (name : value)
| GetCount (doctype : string) (filters : option (list Filter)) (cache debug : option bool)
| GetLastDoc (doctype : string) (args : option GetLastDocArgs).

Definition perform (net : Transport) (inst : Client) (call : Call) : Async value :=
  match call with
  | GetDoc doctype docname => getDoc net inst doctype docname
  | GetDocList doctype args => getDocList net inst doctype args
  | CreateDoc doc => createDoc net inst doc
  | CreateManyDocs docs => createManyDocs net inst docs
  | UpdateDoc doctype docname values => updateDoc net inst doctype docname values
  | UpdateManyDocs docs => updateManyDocs net inst docs
  | SubmitDoc doctype name => submitDoc net inst doctype name
  | CancelDoc doctype name => cancelDoc net inst doctype name
  | RenameDoc doctype old_name new_name => renameDoc net inst doctype old_name new_name
  | DeleteDoc doctype name => deleteDoc net inst doctype name
  | GetCount doctype filters cache debug => getCount net inst doctype filters cache debug
  | GetLastDoc doctype args => getLastDoc net inst doctype args
  end.

End FrappeDB.

(** ** lib/file/index.ts *)

Module FrappeUpload.

(** The properties [upload] destructures from its [args]. *)
Record FileArgs := mkFileArgs {
  isPrivate : option bool;
  folder : option string;
  file_url : option string;
  doctype : option string;
  docname : option string;
  fieldname : option string;
  otherData : option (list (string * value));
}.

(** [formData.append(key, v)] *)
Definition append (formData : list (string * FormValue)) (key : string) (v : FormValue)
  : list (string * FormValue) :=
  formData ++ [(key, v)].

(** [if (s) formData.append(key, s)] for an optional string [s]. *)
Definition append_truthy (formData : list (string * FormValue)) (key : string)
    (o : option string) : list (string * FormValue) :=
  match o with
  | Some s => if truthy_str s then append formData key (FormField (VStr s)) else formData
  | None => formData
  end.

(** The form [upload] builds. [file] is [None] for a null or undefined
    argument; a [File] object is truthy. *)
Definition upload_form (file : option File) (args : FileArgs) : list (string * FormValue) :=
  let formData := [] in
  let formData :=
    match file with
    | Some f => append formData "file" (FormFile f (file_name f))
    | None => formData
    end in
  let formData :=
    if truthy_flag (isPrivate args)
    then append formData "is_private" (FormField (VStr "1"))
    else formData in
  let formData := append_truthy formData "folder" (folder args) in
  let formData := append_truthy formData "file_url" (file_url args) in
  let formData :=
    match doctype args, docname args with
    | Some dt, Some dn =>
        if truthy_str dt && truthy_str dn then
          let formData := append formData "doctype" (FormField (VStr dt)) in
          let formData := append formData "docname" (FormField (VStr dn)) in
          append_truthy formData "fieldname" (fieldname args)
        else formData
    | _, _ => formData
    end in
  match otherData args with
  | Some other => foldl (fun fd kv => append fd kv.1 (FormField kv.2)) formData other
  | None => formData
  end.

(** The error the catch handler of [upload] throws. *)
Definition normalized (response : Response) : completion (gmap string value) :=
  let body := data response in
  let o := spread ∅ body in
  let o := <["httpStatus" := VNum (status response)]> o in
  let o := <["httpStatusText" := VStr (statusText response)]> o in
  m ← read body "message";
  let o := <["message" := coalesce m (VStr "There was an error while uploading the file.")]> o in
  exception ← read body "exception";
  Normal (<["exception" := coalesce exception (VStr EmptyString)]> o).

Definition handler {A} (error : exn) : completion A :=
  match error_response error with
  | None => Throw TypeError
  | Some response =>
      match normalized response with
      | Normal o => Throw (Thrown o)
      | Throw e => Throw e
      end
  end.

(** The progress callback is called by the transport while the body is
    sent; it changes neither the request nor the result and is left out. *)
Definition upload (net : Transport) (inst : Client) (file : option File) (args : FileArgs)
    (apiPath : option string) : Async Response :=
  let apiPath := default "upload_file" apiPath in
  let formData := upload_form file args in
  via inst (fun c =>
    catch
      (send net {| req_via := c;
                   req_method := POST;
                   req_url := "/api/method/" +:+ apiPath;
                   req_params := ∅;
                   req_data := Multipart formData;
                   req_headers := <["Content-Type" := "multipart/form-data"]> ∅ |})
      handler).

End FrappeUpload.

(** ** The client factories without the header builder

    The sources hold a second copy of the two factories of
    lib/utils/axios-config.ts that writes the headers out instead of calling
    [getCommonHeaders]; it reads nothing from the page. *)

Module Standalone.

Definition getInstanceWithCredentials (net : Transport) (url : string)
    (username password : option string) (headers : option (gmap string string))
  : Async AxiosInstance :=
  res ← send net (login_request url username password
                    (<["Accept" := "application/json"]>
                       (<["Content-Type" := "application/json; charset=utf-8"]> ∅)));
  if status res =? 200 then
    match set_cookie res ≫= List.find (fun cookie => startsWith cookie "sid=") with
    | Some sidCookie =>
        if truthy_str sidCookie then
          mret {| baseURL := Some url;
                  defaultHeaders :=
                    default ∅ headers
                    ∪ <["Accept" := "application/json"]>
                        (<["Content-Type" := "application/json"]>
                           (<["Cookie" := sidCookie]> ∅));
                  withCredentials := false |}
        else throw (login_failure url)
    | None => throw (login_failure url)
    end
  else throw (login_failure url).

Definition getInstanceWithKeys (url : string) (apiKey secretKey : option string)
    (headers : option (gmap string string)) : AxiosInstance :=
  {| baseURL := Some url;
     defaultHeaders :=
       default ∅ headers
       ∪ <["Accept" := "application/json"]>
           (<["Content-Type" := "application/json; charset=utf-8"]>
              (<["Authorization" := "token " +:+ template apiKey +:+ ":" +:+ template secretKey]> ∅));
     withCredentials := true |}.

End Standalone.

(** * Inputs and notions used in the statements *)

(** An execution outside a browser: no [window], no [document]. *)
Definition node_env : Env := {| window := None; document := false |}.

(** A page served from the backend itself, without an embedded token. *)
Definition browser_env : Env :=
  {| window := Some {| location := {| origin := "https://erp.example.com";
                                      hostname := "erp.example.com" |};
                       csrf_token := None |};
     document := true |}.

(** A client as [axios.create] returns it, with no header of its own. *)
Definition plain_client : AxiosInstance :=
  {| baseURL := Some "https://erp.example.com";
     defaultHeaders := ∅;
     withCredentials := true |}.

(** A transport that answers every request with the same response. *)
Definition always (res : Response) : Transport := fun _ _ => Resolved res.

(** A transport that rejects every request with the same remote response. *)
Definition refuses (res : Response) : Transport := fun _ _ => Rejected (Some res).

(** A transport that never reaches the server. *)
Definition unreachable : Transport := fun _ _ => Rejected None.

(** The two headers the builder starts from. *)
Definition default_headers : gmap string string :=
  <["Accept" := "application/json"]>
    (<["Content-Type" := "application/json; charset=utf-8"]> ∅).

(** A configuration with a key and a secret, and the given extra headers. *)
Definition keyed_options (headers : option (gmap string string)) : FrappeOptions :=
  {| opt_url := "https://erp.example.com";
     opt_username := None;
     opt_password := None;
     opt_apiKey := Some "key";
     opt_secretKey := Some "secret";
     opt_headers := headers |}.

(** The answer of a successful login, with the given set-cookie entries. *)
Definition session_response (cookies : option (list string)) : Response :=
  {| status := 200; statusText := "OK"; set_cookie := cookies;
     data := VObj [("message", VStr "Logged In")] |}.

(** A facade configured with all four credential fields. *)
Definition both_credentials : Frappe.t :=
  {| Frappe.url := "https://erp.example.com";
     Frappe.username := Some "admin";
     Frappe.password := Some "secret";
     Frappe.apiKey := Some "key";
     Frappe.secretKey := Some "secret";
     Frappe.headers := None;
     Frappe.instance := Ready plain_client |}.

(** A facade with key and secret, and a password but no username. *)
Definition keys_only : Frappe.t :=
  {| Frappe.url := "https://erp.example.com";
     Frappe.username := None;
     Frappe.password := Some "secret";
     Frappe.apiKey := Some "key";
     Frappe.secretKey := Some "secret";
     Frappe.headers := None;
     Frappe.instance := Ready plain_client |}.


(** A remote failure whose body names the exception type only. *)
Definition validation_failure : Response :=
  {| status := 417; statusText := "EXPECTATION FAILED"; set_cookie := None;
     data := VObj [("exc_type", VStr "ValidationError");
                   ("exception", VNull)] |}.

(** A string between double quotes. *)
Definition quoted (s : string) : string :=
  String dquote (s +:+ String dquote EmptyString).

(** The arguments of the README's and the spec's example. *)
Definition example_args : FrappeDB.GetDocListArgs :=
  {| FrappeDB.fields := None;
     FrappeDB.filters := Some [FrappeDB.mkFilter "creation" ">" (VStr "2021-10-09")];
     FrappeDB.orFilters := None;
     FrappeDB.orderBy := Some {| FrappeDB.field := "creation";
                                 FrappeDB.order := Some FrappeDB.desc |};
     FrappeDB.limit := Some 10;
     FrappeDB.limit_start := None;
     FrappeDB.groupBy := None;
     FrappeDB.asDict := None |}.

(** The answer of the count command. *)
Definition count_response : Response :=
  {| status := 200; statusText := "OK"; set_cookie := None;
     data := VObj [("message", VNum 42)] |}.

(** [formData.get(key)]: the first value appended under the key. *)
Definition form_get (key : string) (form : list (string * FormValue)) : option FormValue :=
  snd <$> List.find (fun kv => String.eqb kv.1 key) form.

(** An optional string argument as a form field, when it is truthy. *)
Definition field_if_truthy (o : option string) : option FormValue :=
  match o with
  | Some s => if truthy_str s then Some (FormField (VStr s)) else None
  | None => None
  end.

(** A transport that answers the n-th request with the n-th response of a
    script, and fails once the script is over. *)
Definition scripted (script : list Response) : Transport := fun log _ =>
  match script !! length log with
  | Some res => Resolved res
  | None => Rejected None
  end.

(** The answer of a list request that matches one document. *)
Definition list_answer : Response :=
  {| status := 200; statusText := "OK"; set_cookie := None;
     data := VObj [("data", VArr [VObj [("name", VStr "TASK-0009")]])] |}.

(** The answer of the request for that document. *)
Definition doc_answer : Response :=
  {| status := 200; statusText := "OK"; set_cookie := None;
     data := VObj [("data", VObj [("name", VStr "TASK-0009");
                                  ("subject", VStr "Renew the licence")])] |}.

(** The calls that issue one request; [getLastDoc] composes two. *)
Definition single_request (call : FrappeDB.Call) : bool :=
  match call with
  | FrappeDB.GetLastDoc _ _ => false
  | _ => true
  end.

(** The calls whose catch handler throws its own message whatever the
    remote body says. *)
Definition fixed_message (call : FrappeDB.Call) : option string :=
  match call with
  | FrappeDB.GetDoc _ _ => Some "There was an error while fetching the document."
  | FrappeDB.GetDocList _ _ => Some "There was an error while fetching the documents."
  | FrappeDB.DeleteDoc _ _ => Some "There was an error while deleting the document."
  | FrappeDB.GetCount _ _ _ _ => Some "There was an error while getting the count."
  | _ => None
  end.

(** The value of a hexadecimal digit; 16 for any other character. *)
Definition hex_value (c : ascii) : N :=
  let n := N_of_ascii c in
  if ((48 <=? n) && (n <=? 57))%N then (n - 48)%N
  else if ((65 <=? n) && (n <=? 70))%N then (n - 55)%N
  else if ((97 <=? n) && (n <=? 102))%N then (n - 87)%N
  else 16%N.

(** The inverse of the percent-encoding, byte by byte: [None] on a [%] that
    is not followed by two hexadecimal digits. It is used to state that
    [encodeURIComponent] loses nothing. *)
Fixpoint percent_decode (s : string) : option string :=
  match s with
  | EmptyString => Some EmptyString
  | String c s' =>
      if Ascii.eqb c "%" then
        match s' with
        | String h1 (String h2 rest) =>
            if ((hex_value h1 <? 16) && (hex_value h2 <? 16))%N
            then String (ascii_of_N (16 * hex_value h1 + hex_value h2)) <$> percent_decode rest
            else None
        | _ => None
        end
      else String c <$> percent_decode s'
  end.

(** The characters of a string. *)
Fixpoint bytes (s : string) : list ascii :=
  match s with
  | EmptyString => []
  | String c s' => c :: bytes s'
  end.

(** A remote failure whose body carries a message and fields of its own. *)
Definition permission_failure : Response :=
  {| status := 403; statusText := "FORBIDDEN"; set_cookie := None;
     data := VObj [("exc_type", VStr "PermissionError");
                   ("message", VStr "Not permitted");
                   ("_server_messages", VStr "[]")] |}.

(** A facade as the constructor leaves it when no key pair is configured. *)
Definition credentials_only : FrappeOptions :=
  {| opt_url := "https://erp.example.com";
     opt_username := Some "admin";
     opt_password := Some "secret";
     opt_apiKey := None;
     opt_secretKey := None;
     opt_headers := None |}.

(** A window that derives no header: another origin, no token. *)
Definition foreign_env : Env :=
  {| window := Some {| location := {| origin := "https://app.example.org";
                                      hostname := "app.example.org" |};
                       csrf_token := Some "{{ csrf_token }}" |};
     document := true |}.

(** An answer whose body has no [data] property. *)
Definition bare_answer : Response :=
  {| status := 200; statusText := "OK"; set_cookie := None;
     data := VObj [("message", VStr "ok")] |}.

(** An answer whose body is the JSON literal [null]. *)
Definition null_answer : Response :=
  {| status := 200; statusText := "OK"; set_cookie := None; data := VNull |}.

(** The text a catch handler falls back on when the remote body has no
    message, for the calls that keep the remote message. *)
Definition fallback_message (call : FrappeDB.Call) : string :=
  match call with
  | FrappeDB.CreateDoc _ => "There was an error while creating the document."
  | FrappeDB.CreateManyDocs _ => "There was an error while creating the documents."
  | FrappeDB.UpdateDoc _ _ _ => "There was an error while updating the document."
  | FrappeDB.UpdateManyDocs _ => "There was an error while updating the documents."
  | FrappeDB.SubmitDoc _ _ => "There was an error while submitting the document."
  | FrappeDB.CancelDoc _ _ => "There was an error while cancelling the document."
  | FrappeDB.RenameDoc _ _ _ => "There was an error while renaming the document."
  | _ => EmptyString
  end.

(** The answer to a login with wrong credentials. *)
Definition unauthorized : Response :=
  {| status := 401; statusText := "UNAUTHORIZED"; set_cookie := None;
     data := VObj [("message", VStr "Invalid login credentials")] |}.


(** * Properties *)

(** ** How asynchronous computations run *)

Lemma run_bind {A B} (m : Async A) (f : A → Async B) log :
  (m ≫= f) log
  = match m log with
    | (Normal a, log') => f a log'
    | (Throw e, log') => (Throw e, log')
    end.
Proof. reflexivity. Qed.

Lemma run_sync_bind {A B} (a : A) (f : A → Async B) log :
  (sync (Normal a) ≫= f) log = f a log.
Proof. reflexivity. Qed.

Lemma run_send_resolved {B} net req res (f : Response → Async B) log :
  net log req = Resolved res →
  (send net req ≫= f) log = f res (log ++ [req]).
Proof. intros Hnet. rewrite run_bind. unfold send. by rewrite Hnet. Qed.

Lemma run_send_rejected {B} net req r (f : Response → Async B) log :
  net log req = Rejected r →
  (send net req ≫= f) log = (Throw (AxiosError r), log ++ [req]).
Proof. intros Hnet. rewrite run_bind. unfold send. by rewrite Hnet. Qed.

(** A request followed by [.then(f).catch(h)]: the request is logged, a
    response goes through [f], and whatever is thrown, by the transport or
    by [f], goes through [h]. *)
Lemma run_request {A} net req (f : Response → completion A) (h : exn → completion A) log :
  catch (and_then (send net req) f) h log
  = (match net log req with
     | Resolved res =>
         match f res with
         | Normal a => Normal a
         | Throw e => h e
         end
     | Rejected r => h (AxiosError r)
     end, log ++ [req]).
Proof.
  unfold catch, and_then. rewrite run_bind. unfold send, sync.
  destruct (net log req) as [res|r]; [|reflexivity].
  by destruct (f res).
Qed.

(** A request followed by [.catch(h)] alone, as in the upload. *)
Lemma run_upload_request net req (h : exn → completion Response) log :
  catch (send net req) h log
  = (match net log req with
     | Resolved res => Normal res
     | Rejected r => h (AxiosError r)
     end, log ++ [req]).
Proof. unfold catch, send. by destruct (net log req). Qed.

(** ** The header builder *)

(** Outside a browser the builder throws. *)
Lemma getCommonHeaders_no_window env baseURL customHeaders :
  window env = None →
  getCommonHeaders env baseURL customHeaders = Throw ReferenceError.
Proof. intros Hw. unfold getCommonHeaders. by rewrite Hw. Qed.

(** With a [window] the builder returns, and apart from the two headers
    derived from the page it returns the caller's headers over the two
    defaults. *)
Lemma getCommonHeaders_window env w baseURL customHeaders :
  window env = Some w →
  ∃ hs, getCommonHeaders env baseURL customHeaders = Normal hs
        ∧ ∀ k, k ≠ "X-Frappe-Site-Name" → k ≠ "X-Frappe-CSRF-Token" →
               hs !! k = (default ∅ customHeaders ∪ default_headers) !! k.
Proof.
  intros Hw. unfold getCommonHeaders. rewrite Hw. fold default_headers.
  set (base := default ∅ customHeaders ∪ default_headers).
  set (sited := if document env then _ else _).
  assert (Hsited : ∀ k, k ≠ "X-Frappe-Site-Name" → sited !! k = base !! k).
  { intros k Hk. subst sited.
    destruct (document env); [|done].
    destruct (truthy_str baseURL && _); [|done]. by rewrite lookup_insert_ne. }
  clearbody sited.
  destruct (csrf_token w) as [token|].
  - destruct (truthy_str token && _).
    + eexists; split; [reflexivity|]. intros k Hk1 Hk2.
      rewrite lookup_insert_ne by done. by apply Hsited.
    + eexists; split; [reflexivity|]. intros k Hk1 _. by apply Hsited.
  - eexists; split; [reflexivity|]. intros k Hk1 _. by apply Hsited.
Qed.

(** A header the builder does not set itself comes from the caller. *)
Lemma getCommonHeaders_passes env baseURL customHeaders hs k :
  getCommonHeaders env baseURL customHeaders = Normal hs →
  k ≠ "X-Frappe-Site-Name" → k ≠ "X-Frappe-CSRF-Token" →
  k ≠ "Accept" → k ≠ "Content-Type" →
  hs !! k = default ∅ customHeaders !! k.
Proof.
  intros Hhs Hk1 Hk2 Hk3 Hk4.
  destruct (window env) as [w|] eqn:Hw.
  - destruct (getCommonHeaders_window env w baseURL customHeaders Hw) as (hs' & Heq & Hlk).
    rewrite Heq in Hhs. injection Hhs as <-.
    rewrite Hlk by done. rewrite lookup_union.
    unfold default_headers. rewrite !lookup_insert_ne by done.
    rewrite lookup_empty. by destruct (default ∅ customHeaders !! k).
  - by rewrite getCommonHeaders_no_window in Hhs.
Qed.

(** [{ k: v, ...common }]: the spread comes last and wins. *)
Lemma lookup_under_spread (common : gmap string string) k v :
  (common ∪ <[k := v]> ∅) !! k = Some (default v (common !! k)).
Proof.
  rewrite lookup_union, lookup_insert_eq. by destruct (common !! k).
Qed.

(** ** C10 *)

(** C10. Where no [window] global exists, the common-header builder throws a
    reference error instead of returning headers, whatever its arguments,
    and so do both client factories: the key-based one, and the login-based
    one before it issues any request. The facade inherits this: its
    constructor throws when the keys are set, and [login] throws without a
    request when username and password are set. *)
Theorem C10_no_window_reference_error (env : Env) :
  window env = None →
  (∀ baseURL customHeaders,
      getCommonHeaders env baseURL customHeaders = Throw ReferenceError)
  ∧ (∀ url apiKey secretKey headers,
      getInstanceWithKeys env url apiKey secretKey headers = Throw ReferenceError)
  ∧ (∀ net url username password headers log,
      getInstanceWithCredentials env net url username password headers log
      = (Throw ReferenceError, log))
  ∧ (∀ options,
      truthy_opt (opt_apiKey options) && truthy_opt (opt_secretKey options) = true →
      Frappe.constructor env options = Throw ReferenceError)
  ∧ (∀ net this log,
      truthy_opt (Frappe.username this) && truthy_opt (Frappe.password this) = true →
      Frappe.login env net this log = (Throw ReferenceError, log)).
Proof.
  intros Hw.
  assert (Hkeys : ∀ url apiKey secretKey headers,
             getInstanceWithKeys env url apiKey secretKey headers = Throw ReferenceError).
  { intros. unfold getInstanceWithKeys. by rewrite getCommonHeaders_no_window. }
  assert (Hcred : ∀ net url username password headers log,
             getInstanceWithCredentials env net url username password headers log
             = (Throw ReferenceError, log)).
  { intros. unfold getInstanceWithCredentials.
    by rewrite getCommonHeaders_no_window. }
  split; [intros; by apply getCommonHeaders_no_window|].
  split; [done|]. split; [done|]. split.
  - intros options Hset. unfold Frappe.constructor. cbn. rewrite Hset.
    by rewrite Hkeys.
  - intros net this log Hset. unfold Frappe.login. rewrite Hset.
    unfold mbind, async_bind. by rewrite Hcred.
Qed.

Lemma C10_witness :
  window node_env = None
  ∧ getCommonHeaders node_env "https://erp.example.com" None = Throw ReferenceError.
Proof.
  split; [reflexivity|].
  apply (C10_no_window_reference_error node_env); reflexivity.
Defined.

(** ** C6 *)

(** C6, as stated, fails: with apiKey [key], secretKey [secret] and the
    caller's headers [{ Authorization: 'Basic Zm9v' }], no client whose
    [Authorization] header is [token key:secret] comes out of the
    constructor; the caller's header is spread last and replaces it. *)
Lemma C6_counterexample :
  truthy_opt (opt_apiKey (keyed_options (Some (<["Authorization" := "Basic Zm9v"]> ∅))))
  && truthy_opt (opt_secretKey (keyed_options (Some (<["Authorization" := "Basic Zm9v"]> ∅))))
  = true
  ∧ ¬ ∃ this c,
      Frappe.constructor browser_env
        (keyed_options (Some (<["Authorization" := "Basic Zm9v"]> ∅))) = Normal this
      ∧ Frappe.instance this = Ready c
      ∧ defaultHeaders c !! "Authorization" = Some "token key:secret"
      ∧ withCredentials c = true.
Proof.
  split; [reflexivity|].
  intros (this & c & Hnew & Hinst & Hauth & _).
  vm_compute in Hnew. injection Hnew as <-.
  cbn in Hinst. injection Hinst as <-.
  vm_compute in Hauth. discriminate.
Qed.

(** C6 (amended). For every configuration whose apiKey and secretKey are
    both non-empty, in an environment that has a [window], constructing the
    facade returns without touching the request log, and the facade holds a
    client for the configured URL with [withCredentials] enabled whose
    [Authorization] header is [token <apiKey>:<secretKey>], unless the
    caller's headers have an [Authorization] entry, which then is the one
    the client carries. *)
Theorem C6_keys_client (env : Env) (w : Window) (options : FrappeOptions) (k s : string) :
  window env = Some w →
  opt_apiKey options = Some k → truthy_str k = true →
  opt_secretKey options = Some s → truthy_str s = true →
  ∃ this c,
    Frappe.constructor env options = Normal this
    ∧ (∀ log, sync (Frappe.constructor env options) log = (Normal this, log))
    ∧ Frappe.instance this = Ready c
    ∧ baseURL c = Some (opt_url options)
    ∧ withCredentials c = true
    ∧ defaultHeaders c !! "Authorization"
      = Some (default ("token " +:+ k +:+ ":" +:+ s)
                (default ∅ (opt_headers options) !! "Authorization")).
Proof.
  intros Hw Hk Hkt Hs Hst.
  destruct (getCommonHeaders_window env w (opt_url options) (opt_headers options) Hw)
    as (hs & Hhs & _).
  assert (Hnew : Frappe.constructor env options
                 = Normal (Frappe.set_instance
                     {| Frappe.url := opt_url options;
                        Frappe.username := opt_username options;
                        Frappe.password := opt_password options;
                        Frappe.apiKey := opt_apiKey options;
                        Frappe.secretKey := opt_secretKey options;
                        Frappe.headers := opt_headers options;
                        Frappe.instance := NoClient |}
                     (Ready {| baseURL := Some (opt_url options);
                               defaultHeaders :=
                                 hs ∪ <["Authorization" := "token " +:+ k +:+ ":" +:+ s]> ∅;
                               withCredentials := true |}))).
  { unfold Frappe.constructor, getInstanceWithKeys. cbn.
    rewrite Hk, Hs. cbn. rewrite Hkt, Hst. cbn. by rewrite Hhs. }
  eexists _, _. split; [exact Hnew|].
  split; [intros log; unfold sync; by rewrite Hnew|].
  split; [reflexivity|]. split; [reflexivity|]. split; [reflexivity|].
  cbn. rewrite lookup_under_spread.
  by rewrite (getCommonHeaders_passes _ _ _ _ "Authorization" Hhs).
Qed.

Lemma C6_witness :
  ∃ this c,
    Frappe.constructor browser_env (keyed_options None) = Normal this
    ∧ (∀ log, sync (Frappe.constructor browser_env (keyed_options None)) log
              = (Normal this, log))
    ∧ Frappe.instance this = Ready c
    ∧ baseURL c = Some "https://erp.example.com"
    ∧ withCredentials c = true
    ∧ defaultHeaders c !! "Authorization" = Some "token key:secret".
Proof.
  exact (C6_keys_client browser_env _ (keyed_options None) "key" "secret"
           eq_refl eq_refl eq_refl eq_refl eq_refl).
Defined.

(** ** C4 *)

(** The promise of the login request settles one way or the other; the
    request is logged in both cases. *)
Lemma getInstanceWithCredentials_log env net url username password headers hs log :
  getCommonHeaders env url headers = Normal hs →
  snd (getInstanceWithCredentials env net url username password headers log)
  = log ++ [login_request url username password hs].
Proof.
  intros Hhs. unfold getInstanceWithCredentials.
  unfold mbind, async_bind, sync, send, throw, mret, async_ret. rewrite Hhs.
  destruct (net log _) as [res|r]; [|reflexivity].
  destruct (status res =? 200); [|reflexivity].
  destruct (option_bind _ _ _ _) as [sid|]; [|reflexivity].
  destruct (truthy_str sid); reflexivity.
Qed.

(** A cookie that starts with [sid=] is a non-empty string. *)
Lemma startsWith_sid_truthy cookie :
  startsWith cookie "sid=" = true → truthy_str cookie = true.
Proof. by destruct cookie. Qed.

Lemma find_sid_startsWith cookies cookie :
  cookies ≫= List.find (fun c => startsWith c "sid=") = Some cookie →
  startsWith cookie "sid=" = true.
Proof.
  destruct cookies as [l|]; [|done]. cbn. intros Hfind.
  by destruct (List.find_some _ _ Hfind).
Qed.

(** Why the credential factory fails, when it does: the header builder's
    error, the transport's error, or the login failure of its last line. *)
Lemma getCommonHeaders_throws env baseURL customHeaders e :
  getCommonHeaders env baseURL customHeaders = Throw e → e = ReferenceError.
Proof.
  destruct (window env) as [w|] eqn:Hw.
  - destruct (getCommonHeaders_window env w baseURL customHeaders Hw) as (hs & -> & _).
    discriminate.
  - rewrite getCommonHeaders_no_window by done. congruence.
Qed.

Lemma getInstanceWithCredentials_throws env net url username password headers log e :
  fst (getInstanceWithCredentials env net url username password headers log) = Throw e →
  e = ReferenceError ∨ (∃ r, e = AxiosError r) ∨ e = login_failure url.
Proof.
  unfold getInstanceWithCredentials.
  destruct (getCommonHeaders env url headers) as [hs|e0] eqn:Hhs.
  - rewrite run_sync_bind, run_bind. unfold send.
    destruct (net log _) as [res|r]; cbn [fst]; [|intros [= <-]; eauto].
    destruct (status res =? 200); [|intros [= <-]; eauto].
    destruct (set_cookie res ≫= List.find (fun cookie => startsWith cookie "sid="))
      as [cookie|]; [|intros [= <-]; eauto].
    destruct (truthy_str cookie); [|intros [= <-]; eauto].
    rewrite run_sync_bind. discriminate.
  - apply getCommonHeaders_throws in Hhs as ->. intros [= <-]. eauto.
Qed.

(** C4, as stated, fails twice. First, the response has status 200 and the
    set-cookie entry [sid=abc], yet with the caller's headers
    [{ Cookie: 'theme=dark' }] the client returned does not carry [sid=abc]
    as its [Cookie] header. Second, the server answers 401, which the
    transport hands over as a rejection: the status is not 200, yet what
    the call throws is the transport's error, not the error whose message
    is [Failed to login to <url>]. *)
Lemma C4_counterexample :
  (status (session_response (Some ["sid=abc"])) = 200
   ∧ List.find (fun c => startsWith c "sid=") ["sid=abc"] = Some "sid=abc"
   ∧ ¬ ∃ c,
       fst (getInstanceWithCredentials browser_env
              (always (session_response (Some ["sid=abc"])))
              "https://erp.example.com" (Some "admin") (Some "secret")
              (Some (<["Cookie" := "theme=dark"]> ∅)) [])
       = Normal c
       ∧ defaultHeaders c !! "Cookie" = Some "sid=abc")
  ∧ (status unauthorized ≠ 200
     ∧ fst (getInstanceWithCredentials browser_env (refuses unauthorized)
              "https://erp.example.com" (Some "admin") (Some "wrong") None [])
       ≠ Throw (JsError "Failed to login to https://erp.example.com")).
Proof.
  split.
  - split; [reflexivity|]. split; [reflexivity|].
    intros (c & Hc & Hcookie).
    vm_compute in Hc. injection Hc as <-.
    vm_compute in Hcookie. discriminate.
  - split; [discriminate|]. intros H. vm_compute in H. discriminate.
Qed.

(** C4 (amended). For every credential login call in an environment where
    the header builder returns, the call issues exactly one request, the
    login POST. If its promise resolves with a response whose status is 200
    and some set-cookie entry starts with [sid=], the call returns a client
    for the URL whose [Cookie] header is the first such entry, unless the
    caller's headers have a [Cookie] entry, which then is the one the client
    carries. If it resolves with a response whose status is not 200 or in
    which no entry starts with [sid=], the call throws an error whose
    message is [Failed to login to <url>]. If the transport rejects the
    request (as it does for an answer outside 2xx, and when no answer
    arrives), the call rethrows the transport's error as it is. *)
Theorem C4_credential_login (env : Env) (net : Transport) (url : string)
    (username password : option string) (headers : option (gmap string string))
    (hs : gmap string string) (log : list Request) :
  getCommonHeaders env url headers = Normal hs →
  let req := login_request url username password hs in
  let outcome := getInstanceWithCredentials env net url username password headers log in
  snd outcome = log ++ [req]
  ∧ (∀ res, net log req = Resolved res →
       let sid := set_cookie res ≫= List.find (fun cookie => startsWith cookie "sid=") in
       (∀ cookie, status res = 200 → sid = Some cookie →
          ∃ c, fst outcome = Normal c
               ∧ baseURL c = Some url
               ∧ defaultHeaders c !! "Cookie"
                 = Some (default cookie (default ∅ headers !! "Cookie")))
       ∧ (status res ≠ 200 ∨ sid = None →
          fst outcome = Throw (JsError ("Failed to login to " +:+ url))))
  ∧ (∀ r, net log req = Rejected r → fst outcome = Throw (AxiosError r)).
Proof.
  intros Hhs req outcome.
  split; [by apply getInstanceWithCredentials_log|].
  subst outcome. split.
  - intros res Hnet sid. unfold getInstanceWithCredentials.
    rewrite Hhs, run_sync_bind, (run_send_resolved _ _ res) by done. fold sid.
    split.
    + intros cookie Hstatus Hsid. rewrite Hstatus, Hsid. cbn.
      rewrite (startsWith_sid_truthy cookie) by (by eapply find_sid_startsWith).
      eexists. split; [reflexivity|]. split; [reflexivity|]. cbn.
      rewrite lookup_under_spread.
      by rewrite (getCommonHeaders_passes _ _ _ _ "Cookie" Hhs).
    + intros [Hstatus|Hsid].
      * apply Z.eqb_neq in Hstatus. by rewrite Hstatus.
      * rewrite Hsid. by destruct (status res =? 200).
  - intros r Hnet. unfold getInstanceWithCredentials.
    by rewrite Hhs, run_sync_bind, (run_send_rejected _ _ r).
Qed.

Lemma C4_witness :
  (∃ c, fst (getInstanceWithCredentials browser_env
               (always (session_response (Some ["lang=en"; "sid=abc"])))
               "https://erp.example.com" (Some "admin") (Some "secret") None [])
        = Normal c
        ∧ baseURL c = Some "https://erp.example.com"
        ∧ defaultHeaders c !! "Cookie" = Some "sid=abc")
  ∧ fst (getInstanceWithCredentials browser_env
           (always (session_response (Some ["lang=en"])))
           "https://erp.example.com" (Some "admin") (Some "secret") None [])
    = Throw (JsError "Failed to login to https://erp.example.com")
  ∧ fst (getInstanceWithCredentials browser_env (refuses unauthorized)
           "https://erp.example.com" (Some "admin") (Some "wrong") None [])
    = Throw (AxiosError (Some unauthorized)).
Proof.
  split; [|split].
  - exact (proj1 (proj1 (proj2 (C4_credential_login browser_env
             (always (session_response (Some ["lang=en"; "sid=abc"])))
             "https://erp.example.com" (Some "admin") (Some "secret") None
             (<["X-Frappe-Site-Name" := "erp.example.com"]> default_headers) []
             eq_refl))
             (session_response (Some ["lang=en"; "sid=abc"])) eq_refl)
             "sid=abc" eq_refl eq_refl).
  - exact (proj2 (proj1 (proj2 (C4_credential_login browser_env
             (always (session_response (Some ["lang=en"])))
             "https://erp.example.com" (Some "admin") (Some "secret") None
             (<["X-Frappe-Site-Name" := "erp.example.com"]> default_headers) []
             eq_refl))
             (session_response (Some ["lang=en"])) eq_refl)
             (or_intror eq_refl)).
  - exact (proj2 (proj2 (C4_credential_login browser_env (refuses unauthorized)
             "https://erp.example.com" (Some "admin") (Some "wrong") None
             (<["X-Frappe-Site-Name" := "erp.example.com"]> default_headers) []
             eq_refl))
             (Some unauthorized) eq_refl).
Defined.

(** ** C1 *)

(** C1, as stated, fails: with all four credential fields set, [login]
    does not throw the usage error with the log untouched; it takes the
    username/password branch, posts the login request and, the login being
    accepted, returns. *)
Lemma C1_counterexample :
  truthy_opt (Frappe.apiKey both_credentials)
  && truthy_opt (Frappe.secretKey both_credentials) = true
  ∧ (∃ this',
       fst (Frappe.login browser_env (always (session_response (Some ["sid=abc"])))
              both_credentials []) = Normal this')
  ∧ snd (Frappe.login browser_env (always (session_response (Some ["sid=abc"])))
           both_credentials []) ≠ []
  ∧ Frappe.login browser_env (always (session_response (Some ["sid=abc"])))
      both_credentials []
    ≠ (Throw (JsError Frappe.no_need_to_login), []).
Proof.
  split; [reflexivity|]. split; [eexists; vm_compute; reflexivity|].
  split; [vm_compute; discriminate|].
  intros H. apply (f_equal snd) in H. vm_compute in H. discriminate.
Qed.

(** C1 (amended). For every facade whose apiKey and secretKey are both set:
    when username and password are not both set, [login] throws the
    usage error "You don't need to login if you have API key and secret key"
    and issues no request; when username and password are both set,
    [login] does not throw that usage error, whatever the environment and
    the transport do: it takes the credential path instead and, where the
    header builder returns, posts the login request. *)
Theorem C1_login_with_keys (env : Env) (net : Transport) (this : Frappe.t) :
  truthy_opt (Frappe.apiKey this) && truthy_opt (Frappe.secretKey this) = true →
  (truthy_opt (Frappe.username this) && truthy_opt (Frappe.password this) = false →
     ∀ log, Frappe.login env net this log
            = (Throw (JsError "You don't need to login if you have API key and secret key"),
               log))
  ∧ (truthy_opt (Frappe.username this) && truthy_opt (Frappe.password this) = true →
     ∀ hs log,
       getCommonHeaders env (Frappe.url this) (Frappe.headers this) = Normal hs →
       snd (Frappe.login env net this log)
       = log ++ [login_request (Frappe.url this) (Frappe.username this)
                   (Frappe.password this) hs])
  ∧ (truthy_opt (Frappe.username this) && truthy_opt (Frappe.password this) = true →
     ∀ log,
       fst (Frappe.login env net this log)
       ≠ Throw (JsError "You don't need to login if you have API key and secret key")
       ∧ Frappe.login env net this log
         = (c ← getInstanceWithCredentials env net (Frappe.url this) (Frappe.username this)
                  (Frappe.password this) (Frappe.headers this);
            mret (Frappe.set_instance this (Ready c))) log).
Proof.
  intros Hkeys. split; [|split].
  - intros Hcred log. unfold Frappe.login. by rewrite Hcred, Hkeys.
  - intros Hcred hs log Hhs. unfold Frappe.login. rewrite Hcred.
    unfold mbind, async_bind.
    pose proof (getInstanceWithCredentials_log env net (Frappe.url this)
                  (Frappe.username this) (Frappe.password this) (Frappe.headers this)
                  hs log Hhs) as Hlog.
    destruct (getInstanceWithCredentials _ _ _ _ _ _ _) as [[c|e] log'];
      cbn in Hlog; by subst.
  - intros Hcred log. unfold Frappe.login. rewrite Hcred. split; [|reflexivity].
    rewrite run_bind.
    pose proof (getInstanceWithCredentials_throws env net (Frappe.url this)
                  (Frappe.username this) (Frappe.password this) (Frappe.headers this)
                  log) as Hkind.
    destruct (getInstanceWithCredentials _ _ _ _ _ _ _) as [[c|e] log'];
      cbn [fst] in *; [discriminate|].
    intros [= ->].
    destruct (Hkind _ eq_refl) as [?|[[r ?]|Hfail]]; [discriminate..|].
    unfold login_failure in Hfail. cbn in Hfail. discriminate.
Qed.

Lemma C1_witness :
  Frappe.login node_env unreachable keys_only []
  = (Throw (JsError "You don't need to login if you have API key and secret key"), [])
  ∧ fst (Frappe.login browser_env (refuses unauthorized) both_credentials [])
    ≠ Throw (JsError "You don't need to login if you have API key and secret key").
Proof.
  split.
  - exact (proj1 (C1_login_with_keys node_env unreachable keys_only eq_refl) eq_refl []).
  - exact (proj1 (proj2 (proj2 (C1_login_with_keys browser_env (refuses unauthorized)
                                  both_credentials eq_refl)) eq_refl [])).
Defined.

(** ** C3 *)

Lemma member_prop v k : nullish v = false → member v k = Some (prop v k).
Proof. unfold prop. by destruct v. Qed.

Lemma read_prop v k : nullish v = false → read v k = Normal (prop v k).
Proof. intros Hv. unfold read. by rewrite member_prop. Qed.




(** The catch handler never returns: it throws the normalized object, or
    fails itself. *)
Lemma handler_throws {A} fallback message e :
  ∃ e', @FrappeDB.handler A fallback message e = Throw e'.
Proof.
  unfold FrappeDB.handler. destruct (error_response e) as [r|]; [|by eexists].
  destruct (FrappeDB.normalized fallback message r); by eexists.
Qed.

Lemma read_throws v k e : read v k = Throw e → e = TypeError.
Proof. unfold read. destruct (member v k); congruence. Qed.





(** ** C9 *)

(** C9 evaluated on the code: when the transport rejects a request without
    a response, no call throws the normalized object. The catch handler
    reads [error.response.data] on an undefined [error.response], so every
    call of the document client, and the upload, ends in a [TypeError];
    with a response attached the same calls throw the normalized object
    (C3). *)
Theorem C9_transport_failure_throws_TypeError (c : AxiosInstance) (log : list Request) :
  (∀ call, fst (FrappeDB.perform unreachable (Ready c) call log) = Throw TypeError)
  ∧ (∀ file args apiPath,
       fst (FrappeUpload.upload unreachable (Ready c) file args apiPath log)
       = Throw TypeError).
Proof.
  split.
  - intros call. destruct call; cbn [FrappeDB.perform];
      unfold FrappeDB.getLastDoc, FrappeDB.getDoc, FrappeDB.getDocList,
        FrappeDB.createDoc, FrappeDB.createManyDocs, FrappeDB.updateDoc,
        FrappeDB.updateManyDocs, FrappeDB.submitDoc, FrappeDB.cancelDoc,
        FrappeDB.renameDoc, FrappeDB.deleteDoc, FrappeDB.getCount, via;
      rewrite ?run_bind, run_request; reflexivity.
  - intros file args apiPath. reflexivity.
Qed.

(** ** C5 *)

(** C5. A [getDocList] call with [args] issues one GET on the doctype's
    resource whose parameters are: [filters] and [or_filters], the JSON
    string of the given array, and [undefined] (left out of the query) when
    none is given; [fields], the JSON string of the array of field names;
    [order_by], the field, a space and the order, which is [asc] when
    omitted (and the empty string when no ordering is given at all);
    [group_by], [limit] and [limit_start] as given; and [as_dict],
    true unless given. For the example arguments, [filters] is the string
    [[["creation",">","2021-10-09"]]], [order_by] is [creation desc] and
    [limit] is 10. *)
Theorem C5_getDocList_params :
  (∀ net c doctype a log,
      snd (FrappeDB.getDocList net (Ready c) doctype (Some a) log)
      = log ++ [FrappeDB.request c GET ("/api/resource/" +:+ doctype)
                  (FrappeDB.getDocList_params (Some a)) NoData])
  ∧ (∀ a : FrappeDB.GetDocListArgs,
      let params := FrappeDB.getDocList_params (Some a) in
      params !! "filters"
      = Some (match FrappeDB.filters a with
              | Some l => VStr (default "null"
                                  (JSON_stringify (VArr (FrappeDB.filter_value_of <$> l))))
              | None => VUndefined
              end)
      ∧ params !! "or_filters"
        = Some (match FrappeDB.orFilters a with
                | Some l => VStr (default "null"
                                    (JSON_stringify (VArr (FrappeDB.filter_value_of <$> l))))
                | None => VUndefined
                end)
      ∧ params !! "fields"
        = Some (match FrappeDB.fields a with
                | Some l => VStr (default "null" (JSON_stringify (VArr (VStr <$> l))))
                | None => VUndefined
                end)
      ∧ params !! "order_by"
        = Some (VStr match FrappeDB.orderBy a with
                     | Some o =>
                         FrappeDB.field o +:+ " " +:+
                         match FrappeDB.order o with
                         | Some FrappeDB.desc => "desc"
                         | Some FrappeDB.asc | None => "asc"
                         end
                     | None => EmptyString
                     end)
      ∧ params !! "group_by" = Some (of_opt (FrappeDB.groupBy a))
      ∧ params !! "limit" = Some (FrappeDB.of_num (FrappeDB.limit a))
      ∧ params !! "limit_start" = Some (FrappeDB.of_num (FrappeDB.limit_start a))
      ∧ params !! "as_dict"
        = Some (VBool (match FrappeDB.asDict a with
                       | Some b => b
                       | None => true
                       end)))
  ∧ (let params := FrappeDB.getDocList_params (Some example_args) in
     params !! "filters"
     = Some (VStr ("[[" +:+ quoted "creation" +:+ "," +:+ quoted ">" +:+ ","
                   +:+ quoted "2021-10-09" +:+ "]]"))
     ∧ params !! "order_by" = Some (VStr "creation desc")
     ∧ params !! "limit" = Some (VNum 10)).
Proof.
  split; [|split].
  - intros. unfold FrappeDB.getDocList, via. by rewrite run_request.
  - intros a params. subst params. unfold FrappeDB.getDocList_params.
    repeat split; try reflexivity.
    destruct (FrappeDB.orderBy a) as [[f [[|]|]]|]; reflexivity.
  - repeat split; vm_compute; reflexivity.
Qed.

(** ** C8 *)

(** C8. The parameters of a [getCount] request always have a [filters] key:
    the empty array when the caller passed no filters, the JSON string of
    the caller's filters otherwise. The [cache] and [debug] keys are there
    exactly when the corresponding flag is truthy. The call issues one GET
    with these parameters, and when the response's body has properties the
    call returns its [message] property. *)
Theorem C8_getCount (net : Transport) (c : AxiosInstance) (doctype : string)
    (filters : option (list FrappeDB.Filter)) (cache debug : option bool)
    (log : list Request) :
  let params := FrappeDB.getCount_params doctype filters cache debug in
  let req := FrappeDB.request c GET EmptyString params NoData in
  params !! "filters"
  = Some (match filters with
          | None => VArr []
          | Some l => VStr (default "null"
                              (JSON_stringify (VArr (FrappeDB.filter_value_of <$> l))))
          end)
  ∧ params !! "cache" = (if truthy_flag cache then Some (VBool true) else None)
  ∧ params !! "debug" = (if truthy_flag debug then Some (VBool true) else None)
  ∧ snd (FrappeDB.getCount net (Ready c) doctype filters cache debug log) = log ++ [req]
  ∧ (∀ res, net log req = Resolved res → nullish (data res) = false →
        fst (FrappeDB.getCount net (Ready c) doctype filters cache debug log)
        = Normal (prop (data res) "message")).
Proof.
  intros params req. subst params req.
  split; [|split; [|split; [|split]]].
  - destruct filters, cache as [[|]|], debug as [[|]|]; reflexivity.
  - destruct filters, cache as [[|]|], debug as [[|]|]; reflexivity.
  - destruct filters, cache as [[|]|], debug as [[|]|]; reflexivity.
  - unfold FrappeDB.getCount, via. by rewrite run_request.
  - intros res Hnet Hbody. unfold FrappeDB.getCount, via.
    rewrite run_request, Hnet. cbn [fst]. by rewrite read_prop.
Qed.

Lemma C8_witness :
  fst (FrappeDB.getCount (always count_response) (Ready plain_client) "Task"
         (Some [FrappeDB.mkFilter "status" "=" (VStr "Open")]) None (Some true) [])
  = Normal (VNum 42).
Proof.
  exact (proj2 (proj2 (proj2 (proj2
           (C8_getCount (always count_response) plain_client "Task"
              (Some [FrappeDB.mkFilter "status" "=" (VStr "Open")]) None (Some true) []))))
           count_response eq_refl eq_refl).
Defined.

(** ** C7 *)

(** Appending the pairs of [otherData] one by one puts them, in order,
    behind what the form holds. *)
Lemma append_other (formData : list (string * FormValue)) (other : list (string * value)) :
  foldl (fun fd kv => FrappeUpload.append fd kv.1 (FormField kv.2)) formData other
  = formData ++ ((fun kv => (kv.1, FormField kv.2)) <$> other).
Proof.
  revert formData. induction other as [|kv other IH]; intros formData; cbn.
  - by rewrite app_nil_r.
  - rewrite IH. unfold FrappeUpload.append. by rewrite <- app_assoc.
Qed.

(** C7. An upload of a file [f] posts one request whose body is a
    multipart form. The form is the entry [file] holding [f] under its
    name, then the entries derived from the arguments, then one
    entry per pair of [otherData], in order and unchanged. Among the
    entries derived from the arguments: [is_private] is there, as the
    string [1], exactly when [isPrivate] is truthy; [folder] and [file_url]
    exactly when the argument is truthy; [doctype] and [docname] exactly
    when both are truthy, so a doctype without a docname attaches neither;
    [fieldname] exactly when both are truthy and [fieldname] is; and no other
    key occurs. *)
Theorem C7_upload_form (f : File) (args : FrappeUpload.FileArgs) :
  (∀ net c apiPath log,
      ∃ req, snd (FrappeUpload.upload net (Ready c) (Some f) args apiPath log) = log ++ [req]
             ∧ req_method req = POST
             ∧ req_data req = Multipart (FrappeUpload.upload_form (Some f) args))
  ∧ ∃ own,
    FrappeUpload.upload_form (Some f) args
    = ("file", FormFile f (file_name f))
      :: own ++ ((fun kv => (kv.1, FormField kv.2)) <$> default [] (FrappeUpload.otherData args))
    ∧ form_get "is_private" own
      = (if truthy_flag (FrappeUpload.isPrivate args)
         then Some (FormField (VStr "1")) else None)
    ∧ form_get "folder" own = field_if_truthy (FrappeUpload.folder args)
    ∧ form_get "file_url" own = field_if_truthy (FrappeUpload.file_url args)
    ∧ (let both := truthy_opt (FrappeUpload.doctype args)
                   && truthy_opt (FrappeUpload.docname args) in
       form_get "doctype" own
       = (if both then field_if_truthy (FrappeUpload.doctype args) else None)
       ∧ form_get "docname" own
         = (if both then field_if_truthy (FrappeUpload.docname args) else None)
       ∧ form_get "fieldname" own
         = (if both then field_if_truthy (FrappeUpload.fieldname args) else None))
    ∧ Forall (fun kv => kv.1 ∈ ["is_private"; "folder"; "file_url";
                                "doctype"; "docname"; "fieldname"]) own.
Proof.
  split.
  { intros. unfold FrappeUpload.upload, via. rewrite run_upload_request.
    eexists; split; [reflexivity|by split]. }
  destruct args as [isPrivate folder file_url doctype docname fieldname otherData].
  unfold FrappeUpload.upload_form. cbn [FrappeUpload.isPrivate FrappeUpload.folder
    FrappeUpload.file_url FrappeUpload.doctype FrappeUpload.docname
    FrappeUpload.fieldname FrappeUpload.otherData].
  assert (Hother : ∀ formData,
             match otherData with
             | Some other =>
                 foldl (fun fd kv => FrappeUpload.append fd kv.1 (FormField kv.2))
                   formData other
             | None => formData
             end
             = formData ++ ((fun kv => (kv.1, FormField kv.2)) <$> default [] otherData)).
  { intros formData. destruct otherData as [other|]; cbn.
    - apply append_other.
    - by rewrite app_nil_r. }
  rewrite Hother. clear Hother.
  destruct isPrivate as [[|]|], folder as [[|? ?]|], file_url as [[|? ?]|],
    doctype as [[|? ?]|], docname as [[|? ?]|], fieldname as [[|? ?]|];
    (eexists; split; [reflexivity|]);
    (repeat split; try reflexivity);
    repeat (apply Forall_cons; split; [cbn; set_solver|]); apply Forall_nil_2.
Qed.

(** ** C2 *)

Lemma prop_member v k x : prop v k = x → x ≠ VUndefined → member v k = Some x.
Proof.
  unfold prop. destruct (member v k) as [y|]; cbn; intros <-; [done|congruence].
Qed.

(** C2. [getLastDoc] first issues the list request of [getDocList] with
    [limit] 1, [fields] the JSON array holding [name] alone, and [order_by]
    [creation desc] unless the caller's arguments carry an ordering of
    their own. When that request is answered with an empty list, the call
    returns the empty object and no further request is issued. When it is
    answered with a list whose first element is named [name], the call
    continues as [getDoc] on that name: the second and last request is the
    GET of the document, and when it is answered the call returns the
    record of that answer. *)
Theorem C2_getLastDoc (net : Transport) (c : AxiosInstance) (doctype : string)
    (args : option FrappeDB.GetLastDocArgs) (log : list Request) (res : Response) :
  let query := FrappeDB.getDocList_params (Some (FrappeDB.getLastDoc_query args)) in
  let list_req := FrappeDB.request c GET ("/api/resource/" +:+ doctype) query NoData in
  net log list_req = Resolved res →
  (query !! "limit" = Some (VNum 1)
   ∧ query !! "fields" = Some (VStr ("[" +:+ quoted "name" +:+ "]"))
   ∧ query !! "order_by"
     = Some (VStr match args ≫= FrappeDB.last_orderBy with
                  | None => "creation desc"
                  | Some o =>
                      FrappeDB.field o +:+ " " +:+
                      FrappeDB.order_name (default FrappeDB.asc (FrappeDB.order o))
                  end))
  ∧ (prop (data res) "data" = VArr [] →
       FrappeDB.getLastDoc net (Ready c) doctype args log
       = (Normal (VObj []), log ++ [list_req]))
  ∧ (∀ doc docs name,
       prop (data res) "data" = VArr (doc :: docs) →
       prop doc "name" = VStr name →
       let get_req :=
         FrappeDB.request c GET
           ("/api/resource/" +:+ doctype +:+ "/" +:+ encodeURIComponent name) ∅ NoData in
       FrappeDB.getLastDoc net (Ready c) doctype args log
       = FrappeDB.getDoc net (Ready c) doctype (Some name) (log ++ [list_req])
       ∧ snd (FrappeDB.getLastDoc net (Ready c) doctype args log)
         = log ++ [list_req; get_req]
       ∧ (∀ record, net (log ++ [list_req]) get_req = Resolved record →
            nullish (data record) = false →
            fst (FrappeDB.getLastDoc net (Ready c) doctype args log)
            = Normal (prop (data record) "data"))).
Proof.
  intros query list_req Hnet.
  assert (Hlist : ∀ docs, prop (data res) "data" = docs → docs ≠ VUndefined →
            FrappeDB.getDocList net (Ready c) doctype
              (Some (FrappeDB.getLastDoc_query args)) log
            = (Normal docs, log ++ [list_req])).
  { intros docs Hdocs Hdef. unfold FrappeDB.getDocList, via.
    rewrite run_request. fold query. fold list_req. rewrite Hnet.
    unfold FrappeDB.res_data_data, read. by rewrite (prop_member _ _ docs). }
  split; [|split].
  - subst query. split; [reflexivity|]. split; [reflexivity|].
    destruct args as [[fs ofs [[f [[|]|]]|]]|]; reflexivity.
  - intros Hempty. unfold FrappeDB.getLastDoc.
    rewrite run_bind, (Hlist (VArr [])) by done. reflexivity.
  - intros doc docs name Hdocs Hname get_req.
    assert (Hstep : FrappeDB.getLastDoc net (Ready c) doctype args log
                    = FrappeDB.getDoc net (Ready c) doctype (Some name) (log ++ [list_req])).
    { unfold FrappeDB.getLastDoc.
      rewrite run_bind, (Hlist (VArr (doc :: docs))) by done.
      rewrite run_bind. cbn [sync read member String.eqb Ascii.eqb Bool.eqb length].
      cbn [gt_zero Z.of_nat Z.ltb Z.compare first head default mbind option_bind].
      change (0 <? Z.of_nat (S (length docs))) with true. unfold id.
      by rewrite (prop_member doc "name" (VStr name)). }
    rewrite Hstep. unfold FrappeDB.getDoc, via. rewrite run_request.
    change (default EmptyString (Some name)) with name. fold get_req.
    split; [reflexivity|]. split.
    + cbn [snd]. by rewrite <- app_assoc.
    + intros record Hrecord Hbody. rewrite Hrecord. cbn [fst].
      unfold FrappeDB.res_data_data. by rewrite read_prop.
Qed.

Lemma C2_witness :
  fst (FrappeDB.getLastDoc (scripted [list_answer; doc_answer]) (Ready plain_client)
         "Task" None [])
  = Normal (VObj [("name", VStr "TASK-0009"); ("subject", VStr "Renew the licence")]).
Proof.
  exact (proj2 (proj2 (proj2 (proj2
           (C2_getLastDoc (scripted [list_answer; doc_answer]) plain_client "Task" None []
              list_answer eq_refl))
           (VObj [("name", VStr "TASK-0009")]) [] "TASK-0009" eq_refl eq_refl))
           doc_answer eq_refl eq_refl).
Defined.

(** * Further properties of the code *)

(** ** The header builder, header by header *)

(** X1. Where a [window] exists the header builder returns, and the
    caller's headers take precedence over its two defaults: [Accept] is the
    caller's value if there is one and [application/json] otherwise,
    [Content-Type] is the caller's value if there is one and
    [application/json; charset=utf-8] otherwise. *)
Theorem X1_caller_headers_over_defaults (env : Env) (w : Window) (baseURL : string)
    (customHeaders : option (gmap string string)) :
  window env = Some w →
  ∃ hs, getCommonHeaders env baseURL customHeaders = Normal hs
        ∧ hs !! "Accept"
          = Some (default "application/json" (default ∅ customHeaders !! "Accept"))
        ∧ hs !! "Content-Type"
          = Some (default "application/json; charset=utf-8"
                    (default ∅ customHeaders !! "Content-Type")).
Proof.
  intros Hw.
  destruct (getCommonHeaders_window env w baseURL customHeaders Hw) as (hs & Hhs & Hlk).
  exists hs. split; [done|].
  rewrite !Hlk by done. rewrite !lookup_union. unfold default_headers.
  rewrite lookup_insert_eq, lookup_insert_ne, lookup_insert_eq by done.
  split.
  - by destruct (default ∅ customHeaders !! "Accept").
  - by destruct (default ∅ customHeaders !! "Content-Type").
Qed.

Lemma X1_witness :
  ∃ hs, getCommonHeaders foreign_env "https://erp.example.com"
          (Some (<["Accept" := "text/plain"]> ∅)) = Normal hs
        ∧ hs !! "Accept" = Some "text/plain"
        ∧ hs !! "Content-Type" = Some "application/json; charset=utf-8".
Proof.
  exact (X1_caller_headers_over_defaults foreign_env _ "https://erp.example.com"
           (Some (<["Accept" := "text/plain"]> ∅)) eq_refl).
Defined.

(** X2. The two headers derived from the page take precedence over the
    caller's. [X-Frappe-Site-Name] is the page's hostname exactly when a
    [document] exists and the base URL is non-empty and equal to the page's
    origin; [X-Frappe-CSRF-Token] is the page's token exactly when that is
    non-empty and not the unrendered placeholder [{{ csrf_token }}]. In the
    other cases each header is whatever the caller supplied under that
    name, if anything. *)
Theorem X2_page_headers_over_caller (env : Env) (w : Window) (baseURL : string)
    (customHeaders : option (gmap string string)) (hs : gmap string string) :
  window env = Some w →
  getCommonHeaders env baseURL customHeaders = Normal hs →
  hs !! "X-Frappe-Site-Name"
  = (if document env && truthy_str baseURL && String.eqb baseURL (origin (location w))
     then Some (hostname (location w))
     else default ∅ customHeaders !! "X-Frappe-Site-Name")
  ∧ hs !! "X-Frappe-CSRF-Token"
    = (if truthy_opt (csrf_token w)
          && negb (bool_decide (csrf_token w = Some "{{ csrf_token }}"))
       then csrf_token w
       else default ∅ customHeaders !! "X-Frappe-CSRF-Token").
Proof.
  intros Hw. unfold getCommonHeaders. rewrite Hw. fold default_headers.
  set (base := default ∅ customHeaders ∪ default_headers).
  assert (Hbase : ∀ k, k ≠ "Accept" → k ≠ "Content-Type" →
                       base !! k = default ∅ customHeaders !! k).
  { intros k Hk1 Hk2. subst base. rewrite lookup_union. unfold default_headers.
    rewrite !lookup_insert_ne, lookup_empty by done.
    by destruct (default ∅ customHeaders !! k). }
  destruct (document env); cbn [andb];
    [destruct (truthy_str baseURL && (baseURL =? origin (location w))%string)|];
    (destruct (csrf_token w) as [token|]; cbn [truthy_opt];
     [destruct (truthy_str token) eqn:Htruthy; cbn [andb];
      [destruct (String.eqb_spec token "{{ csrf_token }}") as [->|Hne]; cbn [negb]|]|]);
    intros [= <-];
    rewrite ?bool_decide_eq_true_2, ?bool_decide_eq_false_2 by congruence;
    cbn [negb andb];
    rewrite ?lookup_insert_eq, ?(lookup_insert_ne _ "X-Frappe-CSRF-Token"),
      ?lookup_insert_eq, ?(lookup_insert_ne _ "X-Frappe-Site-Name"), ?Hbase by done;
    done.
Qed.

Lemma X2_witness :
  <["X-Frappe-Site-Name" := "erp.example.com"]> default_headers !! "X-Frappe-Site-Name"
  = Some "erp.example.com"
  ∧ <["X-Frappe-Site-Name" := "erp.example.com"]> default_headers !! "X-Frappe-CSRF-Token"
    = None.
Proof.
  exact (X2_page_headers_over_caller browser_env _ "https://erp.example.com" None
           (<["X-Frappe-Site-Name" := "erp.example.com"]> default_headers)
           eq_refl eq_refl).
Defined.

(** ** The facade without a client *)

Lemma perform_no_client net call log :
  FrappeDB.perform net NoClient call log = (Throw TypeError, log).
Proof. by destruct call. Qed.

(** X3. When apiKey and secretKey are not both set, the constructor returns
    in every environment (also without a [window]) and leaves the facade
    without a client. Until a login succeeds, every call of the document
    client and every upload made through that facade throws a [TypeError]
    and issues no request. *)
Theorem X3_facade_without_keys (env : Env) (options : FrappeOptions) :
  truthy_opt (opt_apiKey options) && truthy_opt (opt_secretKey options) = false →
  ∃ this,
    Frappe.constructor env options = Normal this
    ∧ Frappe.client this = NoClient
    ∧ (∀ net call log,
         FrappeDB.perform net (Frappe.client this) call log = (Throw TypeError, log))
    ∧ (∀ net file args apiPath log,
         FrappeUpload.upload net (Frappe.client this) file args apiPath log
         = (Throw TypeError, log)).
Proof.
  intros Hkeys. unfold Frappe.constructor. cbn [Frappe.apiKey Frappe.secretKey].
  rewrite Hkeys. eexists. split; [reflexivity|]. split; [reflexivity|].
  split; [intros; apply perform_no_client|reflexivity].
Qed.

Lemma X3_witness :
  ∃ this,
    Frappe.constructor node_env credentials_only = Normal this
    ∧ Frappe.client this = NoClient
    ∧ (∀ net call log,
         FrappeDB.perform net (Frappe.client this) call log = (Throw TypeError, log))
    ∧ (∀ net file args apiPath log,
         FrappeUpload.upload net (Frappe.client this) file args apiPath log
         = (Throw TypeError, log)).
Proof. exact (X3_facade_without_keys node_env credentials_only eq_refl). Defined.

(** X4. When neither username and password are both set nor apiKey and
    secretKey are both set, [login] throws the usage error "You need to
    provide username and password or API key and secret key" in every
    environment, and issues no request. *)
Theorem X4_login_without_credentials (env : Env) (net : Transport) (this : Frappe.t)
    (log : list Request) :
  truthy_opt (Frappe.username this) && truthy_opt (Frappe.password this) = false →
  truthy_opt (Frappe.apiKey this) && truthy_opt (Frappe.secretKey this) = false →
  Frappe.login env net this log
  = (Throw (JsError "You need to provide username and password or API key and secret key"),
     log).
Proof. intros Hcred Hkeys. unfold Frappe.login. by rewrite Hcred, Hkeys. Qed.

Lemma X4_witness :
  Frappe.login node_env unreachable
    (Frappe.mk "https://erp.example.com" (Some "admin") (Some EmptyString) None
       (Some "secret") None NoClient) []
  = (Throw (JsError "You need to provide username and password or API key and secret key"),
     []).
Proof.
  exact (X4_login_without_credentials node_env unreachable
           (Frappe.mk "https://erp.example.com" (Some "admin") (Some EmptyString) None
              (Some "secret") None NoClient) [] eq_refl eq_refl).
Defined.

(** What a [login] that returns went through. *)
Lemma login_returns_inv (env : Env) (net : Transport) (this this' : Frappe.t)
    (log log' : list Request) :
  Frappe.login env net this log = (Normal this', log') →
  ∃ hs res cookie c,
    getCommonHeaders env (Frappe.url this) (Frappe.headers this) = Normal hs
    ∧ log' = log ++ [login_request (Frappe.url this) (Frappe.username this)
                       (Frappe.password this) hs]
    ∧ net log (login_request (Frappe.url this) (Frappe.username this)
                 (Frappe.password this) hs) = Resolved res
    ∧ status res = 200
    ∧ cookie ∈ default [] (set_cookie res)
    ∧ startsWith cookie "sid=" = true
    ∧ this' = Frappe.set_instance this (Ready c)
    ∧ baseURL c = Some (Frappe.url this)
    ∧ withCredentials c = false
    ∧ defaultHeaders c !! "Cookie"
      = Some (default cookie (default ∅ (Frappe.headers this) !! "Cookie")).
Proof.
  unfold Frappe.login.
  destruct (truthy_opt (Frappe.username this) && truthy_opt (Frappe.password this));
    [|destruct (truthy_opt (Frappe.apiKey this) && truthy_opt (Frappe.secretKey this));
      discriminate].
  rewrite run_bind. unfold getInstanceWithCredentials.
  destruct (getCommonHeaders env (Frappe.url this) (Frappe.headers this)) as [hs|e] eqn:Hhs;
    [|discriminate].
  rewrite run_sync_bind, run_bind. unfold send.
  destruct (net log _) as [res|r] eqn:Hnet; [|discriminate].
  destruct (status res =? 200) eqn:Hstatus; [|discriminate].
  destruct (set_cookie res ≫= List.find (fun cookie => startsWith cookie "sid="))
    as [cookie|] eqn:Hfind; [|discriminate].
  pose proof (find_sid_startsWith _ _ Hfind) as Hsid.
  rewrite (startsWith_sid_truthy cookie Hsid), run_sync_bind.
  intros [= <- <-].
  exists hs, res, cookie. eexists.
  split; [done|]. split; [done|]. split; [done|].
  split; [by apply Z.eqb_eq|]. split.
  { destruct (set_cookie res) as [cookies|]; [|done]. cbn in Hfind |- *.
    apply list_elem_of_In. by destruct (List.find_some _ _ Hfind). }
  split; [done|]. split; [reflexivity|]. split; [done|]. split; [done|].
  cbn [defaultHeaders]. rewrite lookup_under_spread.
  by rewrite (getCommonHeaders_passes _ _ _ _ "Cookie" Hhs).
Qed.

(** X5. A [login] that returns was a credential login that went well: it
    issued exactly one request, the login POST, which was answered with
    status 200 and a set-cookie entry starting with [sid=]; the facade it
    returns differs from the old one in its client only, and the new client
    is bound to the facade's URL, has [withCredentials] off and carries that
    cookie as its [Cookie] header (or the caller's own [Cookie] header, if
    the configuration has one). *)
Theorem X5_login_success (env : Env) (net : Transport) (this this' : Frappe.t)
    (log log' : list Request) :
  Frappe.login env net this log = (Normal this', log') →
  ∃ hs res cookie c,
    getCommonHeaders env (Frappe.url this) (Frappe.headers this) = Normal hs
    ∧ log' = log ++ [login_request (Frappe.url this) (Frappe.username this)
                       (Frappe.password this) hs]
    ∧ net log (login_request (Frappe.url this) (Frappe.username this)
                 (Frappe.password this) hs) = Resolved res
    ∧ status res = 200
    ∧ cookie ∈ default [] (set_cookie res)
    ∧ startsWith cookie "sid=" = true
    ∧ this' = Frappe.set_instance this (Ready c)
    ∧ baseURL c = Some (Frappe.url this)
    ∧ withCredentials c = false
    ∧ defaultHeaders c !! "Cookie"
      = Some (default cookie (default ∅ (Frappe.headers this) !! "Cookie")).
Proof. apply login_returns_inv. Qed.

Lemma X5_witness :
  ∃ hs res cookie c,
    getCommonHeaders browser_env "https://erp.example.com" None = Normal hs
    ∧ [login_request "https://erp.example.com" (Some "admin") (Some "secret")
         (<["X-Frappe-Site-Name" := "erp.example.com"]> default_headers)]
      = [] ++ [login_request "https://erp.example.com" (Some "admin") (Some "secret") hs]
    ∧ always (session_response (Some ["sid=abc"])) []
        (login_request "https://erp.example.com" (Some "admin") (Some "secret") hs)
      = Resolved res
    ∧ status res = 200
    ∧ cookie ∈ default [] (set_cookie res)
    ∧ startsWith cookie "sid=" = true
    ∧ Frappe.set_instance both_credentials
        (Ready {| baseURL := Some "https://erp.example.com";
                  defaultHeaders :=
                    <["X-Frappe-Site-Name" := "erp.example.com"]> default_headers
                    ∪ <["Cookie" := "sid=abc"]> ∅;
                  withCredentials := false |})
      = Frappe.set_instance both_credentials (Ready c)
    ∧ baseURL c = Some "https://erp.example.com"
    ∧ withCredentials c = false
    ∧ defaultHeaders c !! "Cookie" = Some (default cookie (@None string)).
Proof.
  exact (X5_login_success browser_env (always (session_response (Some ["sid=abc"])))
           both_credentials _ [] _ eq_refl).
Defined.

(** ** The document client, call by call *)

Ltac unfold_calls :=
  cbn [FrappeDB.perform];
  unfold FrappeDB.getDoc, FrappeDB.getDocList, FrappeDB.createDoc,
    FrappeDB.createManyDocs, FrappeDB.updateDoc, FrappeDB.updateManyDocs,
    FrappeDB.submitDoc, FrappeDB.cancelDoc, FrappeDB.renameDoc,
    FrappeDB.deleteDoc, FrappeDB.getCount, via.

(** A call other than [getLastDoc] is one request, a then-callback and the
    class's catch handler. *)
Lemma single_request_shape net c call :
  single_request call = true →
  ∃ req f fallback message,
    FrappeDB.perform net (Ready c) call
    = catch (and_then (send net req) f) (FrappeDB.handler fallback message)
    ∧ req_via req = c
    ∧ (∀ res, nullish (data res) = false →
         f res = Normal match call with
                        | FrappeDB.DeleteDoc _ _ => data res
                        | FrappeDB.GetCount _ _ _ _ => prop (data res) "message"
                        | _ => prop (data res) "data"
                        end)
    ∧ (∀ res, nullish (data res) = true →
         f res = match call with
                 | FrappeDB.DeleteDoc _ _ => Normal (data res)
                 | _ => Throw TypeError
                 end)
    ∧ fallback = match fixed_message call with Some _ => false | None => true end
    ∧ (∀ m, fixed_message call = Some m → message = m).
Proof.
  intros Hsingle.
  assert (Hnull : ∀ v k, nullish v = true → read v k = Throw TypeError).
  { intros v k Hv. by destruct v. }
  destruct call; try discriminate; unfold_calls;
    (eexists _, _, _, _; split; [reflexivity|]; split; [reflexivity|];
     split; [intros res Hres; unfold FrappeDB.res_data_data; by rewrite ?read_prop|];
     split; [intros res Hres; unfold FrappeDB.res_data_data; by rewrite ?Hnull|];
     split; [reflexivity|]; cbn; congruence).
Qed.

(** The requests a call adds to the log. *)
Lemma perform_requests (net : Transport) (c : AxiosInstance)
    (call : FrappeDB.Call) (log : list Request) :
  ∃ new,
    snd (FrappeDB.perform net (Ready c) call log) = log ++ new
    ∧ Forall (fun req => req_via req = c) new
    ∧ (length new = 1 ∨ single_request call = false ∧ length new = 2)%nat.
Proof.
  destruct (single_request call) eqn:Hsingle.
  - destruct (single_request_shape net c call Hsingle)
      as (req & f & fb & msg & -> & Hvia & _).
    rewrite run_request. exists [req]. split; [done|]. split; [|by left].
    by apply Forall_singleton.
  - destruct call; try discriminate. cbn [FrappeDB.perform].
    unfold FrappeDB.getLastDoc. rewrite run_bind.
    unfold FrappeDB.getDocList at 1. unfold via at 1. rewrite run_request.
    set (R1 := FrappeDB.request c GET _ _ _).
    assert (Hone : ∀ x : completion value,
               ∃ new, (x, log ++ [R1]).2 = log ++ new
                      ∧ Forall (fun req => req_via req = c) new
                      ∧ (length new = 1 ∨ false = false ∧ length new = 2)%nat).
    { intros x. exists [R1]. split; [done|]. split; [|by left].
      by apply Forall_singleton. }
    destruct (match net log R1 with Resolved _ => _ | Rejected _ => _ end)
      as [docs|e]; [|apply Hone].
    rewrite run_bind. unfold sync at 1.
    destruct (read docs "length") as [len|e]; [|apply Hone].
    destruct (gt_zero len); [|apply Hone].
    destruct (first docs ≫= _) as [name|]; [|apply Hone].
    unfold FrappeDB.getDoc, via. rewrite run_request.
    eexists [R1; _]. split; [by rewrite <- app_assoc|]. split; [|by right].
    by repeat apply Forall_cons_2.
Qed.

(** X6. Every request of a call of the document client goes through the
    client the call was made on, never through another one, and nothing is
    retried: a call other than [getLastDoc] issues exactly one request
    whatever the outcome, [getLastDoc] issues one or two. Requests logged
    before the call are left as they are. *)
Theorem X6_requests_of_a_call (net : Transport) (c : AxiosInstance)
    (call : FrappeDB.Call) (log : list Request) :
  ∃ new,
    snd (FrappeDB.perform net (Ready c) call log) = log ++ new
    ∧ Forall (fun req => req_via req = c) new
    ∧ (length new = 1 ∨ single_request call = false ∧ length new = 2)%nat.
Proof. apply perform_requests. Qed.

(** The upload's catch handler never returns either. *)
Lemma upload_handler_throws {A} e :
  ∃ e', @FrappeUpload.handler A e = Throw e' ∧ (e' = TypeError ∨ ∃ o, e' = Thrown o).
Proof.
  unfold FrappeUpload.handler. destruct (error_response e) as [r|]; [|by eexists; eauto].
  unfold FrappeUpload.normalized.
  destruct (nullish (data r)) eqn:Hbody.
  - assert (read (data r) "message" = Throw TypeError) as -> by (by destruct (data r)).
    cbn. eauto.
  - rewrite !read_prop by done. cbn. eauto.
Qed.

Lemma handler_throws_kind {A} fallback message e :
  ∃ e', @FrappeDB.handler A fallback message e = Throw e'
        ∧ (e' = TypeError ∨ ∃ o, e' = Thrown o).
Proof.
  unfold FrappeDB.handler. destruct (error_response e) as [r|]; [|by eexists; eauto].
  unfold FrappeDB.normalized.
  destruct (nullish (data r)) eqn:Hbody.
  - assert (∀ k, read (data r) k = Throw TypeError) as Hread by (by destruct (data r)).
    rewrite !Hread. destruct fallback; cbn; eauto.
  - rewrite !read_prop by done. destruct fallback; cbn; eauto.
Qed.

(** X7. No failure is swallowed, and the transport's own error object never
    reaches the caller: when the last request of a call of the document
    client, or the request of an upload, was rejected (with or without a
    response), the call throws, and what it throws is either an object
    built by the catch handler or a [TypeError]. *)
Theorem X7_rejections_propagate (net : Transport) (c : AxiosInstance)
    (log' : list Request) (req : Request) (r : option Response) :
  net log' req = Rejected r →
  (∀ call log,
      snd (FrappeDB.perform net (Ready c) call log) = log' ++ [req] →
      ∃ e, fst (FrappeDB.perform net (Ready c) call log) = Throw e
           ∧ (e = TypeError ∨ ∃ o, e = Thrown o))
  ∧ (∀ file args apiPath log,
      snd (FrappeUpload.upload net (Ready c) file args apiPath log) = log' ++ [req] →
      ∃ e, fst (FrappeUpload.upload net (Ready c) file args apiPath log) = Throw e
           ∧ (e = TypeError ∨ ∃ o, e = Thrown o)).
Proof.
  intros Hnet.
  assert (Hsingle : ∀ R (f : Response → completion value) fb msg log,
            snd (catch (and_then (send net R) f) (FrappeDB.handler fb msg) log)
            = log' ++ [req] →
            ∃ e, fst (catch (and_then (send net R) f) (FrappeDB.handler fb msg) log)
                 = Throw e ∧ (e = TypeError ∨ ∃ o, e = Thrown o)).
  { intros R f fb msg log. rewrite run_request. cbn [fst snd]. intros Hlog.
    apply app_inj_tail in Hlog as [<- <-]. rewrite Hnet.
    apply handler_throws_kind. }
  split.
  - intros call log. destruct (single_request call) eqn:Hcall.
    + destruct (single_request_shape net c call Hcall)
        as (R & f & fb & msg & -> & _). apply Hsingle.
    + destruct call; try discriminate. cbn [FrappeDB.perform].
      unfold FrappeDB.getLastDoc. rewrite run_bind.
      unfold FrappeDB.getDocList at 1 2. unfold via at 1 2. rewrite run_request.
      set (R1 := FrappeDB.request c GET _ _ _).
      destruct (net log R1) as [res|r1] eqn:Hnet1.
      * assert (Hresolved : log ++ [R1] = log' ++ [req] → False).
        { intros Hlog. apply app_inj_tail in Hlog as [<- <-]. congruence. }
        destruct (FrappeDB.res_data_data res) as [docs|e] eqn:Hdocs.
        -- rewrite run_bind. unfold sync at 1 2.
           destruct (read docs "length") as [len|e];
             [|cbn [snd]; intros Hlog; destruct (Hresolved Hlog)].
           destruct (gt_zero len);
             [|cbn [snd]; intros Hlog; destruct (Hresolved Hlog)].
           destruct (first docs ≫= _) as [name|];
             [|cbn [snd]; intros Hlog; destruct (Hresolved Hlog)].
           unfold FrappeDB.getDoc, via. apply Hsingle.
        -- apply read_throws in Hdocs as ->.
           cbn [snd FrappeDB.handler error_response].
           intros Hlog; destruct (Hresolved Hlog).
      * destruct (@handler_throws_kind value false
                    "There was an error while fetching the documents." (AxiosError r1))
          as (e' & He' & Hkind).
        rewrite He'. cbn [fst snd]. intros _. by exists e'.
  - intros file args apiPath log. unfold FrappeUpload.upload, via.
    rewrite run_upload_request. cbn [fst snd]. intros Hlog.
    apply app_inj_tail in Hlog as [<- <-]. rewrite Hnet.
    apply upload_handler_throws.
Qed.

Lemma X7_witness :
  ∃ e, fst (FrappeDB.perform unreachable (Ready plain_client)
              (FrappeDB.SubmitDoc "Task" "TASK-0009") []) = Throw e
       ∧ (e = TypeError ∨ ∃ o, e = Thrown o).
Proof.
  exact (proj1 (X7_rejections_propagate unreachable plain_client []
                  (FrappeDB.command plain_client
                     [("cmd", VStr "frappe.client.submit");
                      ("doc", VObj [("doctype", VStr "Task"); ("name", VStr "TASK-0009")])])
                  None eq_refl)
           (FrappeDB.SubmitDoc "Task" "TASK-0009") [] eq_refl).
Defined.

(** X8. When the request of a call other than [getLastDoc] is answered and
    the body is not null, the call returns normally, whatever the status
    code of the answer: [deleteDoc] returns the whole body, [getCount] its
    [message] property, every other call its [data] property ([undefined]
    when the body has none). An answered upload returns the response
    itself. *)
Theorem X8_answered_calls (net : Transport) (c : AxiosInstance)
    (log' : list Request) (req : Request) (res : Response) :
  net log' req = Resolved res →
  (∀ call log,
      single_request call = true →
      nullish (data res) = false →
      snd (FrappeDB.perform net (Ready c) call log) = log' ++ [req] →
      fst (FrappeDB.perform net (Ready c) call log)
      = Normal match call with
               | FrappeDB.DeleteDoc _ _ => data res
               | FrappeDB.GetCount _ _ _ _ => prop (data res) "message"
               | _ => prop (data res) "data"
               end)
  ∧ (∀ file args apiPath log,
      snd (FrappeUpload.upload net (Ready c) file args apiPath log) = log' ++ [req] →
      fst (FrappeUpload.upload net (Ready c) file args apiPath log) = Normal res).
Proof.
  intros Hnet. split.
  - intros call log Hcall Hbody.
    destruct (single_request_shape net c call Hcall)
      as (R & f & fb & msg & -> & _ & Hf & _).
    rewrite run_request. cbn [fst snd]. intros Hlog.
    apply app_inj_tail in Hlog as [<- <-]. by rewrite Hnet, Hf.
  - intros file args apiPath log. unfold FrappeUpload.upload, via.
    rewrite run_upload_request. cbn [fst snd]. intros Hlog.
    apply app_inj_tail in Hlog as [<- <-]. by rewrite Hnet.
Qed.

Lemma X8_witness :
  fst (FrappeDB.perform (always doc_answer) (Ready plain_client)
         (FrappeDB.UpdateDoc "Task" (Some "TASK-0009") [("subject", VStr "Renew the licence")])
         [])
  = Normal (VObj [("name", VStr "TASK-0009"); ("subject", VStr "Renew the licence")]).
Proof.
  exact (proj1 (X8_answered_calls (always doc_answer) plain_client []
                  (FrappeDB.request plain_client PUT "/api/resource/Task/TASK-0009" ∅
                     (Json (VObj [("subject", VStr "Renew the licence")])))
                  doc_answer eq_refl)
           (FrappeDB.UpdateDoc "Task" (Some "TASK-0009")
              [("subject", VStr "Renew the licence")])
           [] eq_refl eq_refl eq_refl).
Defined.

(** X9. When the request of a call other than [getLastDoc] is answered with
    a body that is null, [deleteDoc] returns that null, and every other
    call throws a [TypeError]: the then-callback fails reading the body,
    and the catch handler fails in turn on the error it is given. *)
Theorem X9_answered_with_null (net : Transport) (c : AxiosInstance)
    (call : FrappeDB.Call) (log log' : list Request) (req : Request) (res : Response) :
  single_request call = true →
  net log' req = Resolved res →
  nullish (data res) = true →
  snd (FrappeDB.perform net (Ready c) call log) = log' ++ [req] →
  fst (FrappeDB.perform net (Ready c) call log)
  = match call with
    | FrappeDB.DeleteDoc _ _ => Normal (data res)
    | _ => Throw TypeError
    end.
Proof.
  intros Hcall Hnet Hbody.
  destruct (single_request_shape net c call Hcall)
    as (R & f & fb & msg & -> & _ & _ & Hf & _).
  rewrite run_request. cbn [fst snd]. intros Hlog.
  apply app_inj_tail in Hlog as [<- <-]. rewrite Hnet, Hf by done.
  by destruct call.
Qed.

Lemma X9_witness :
  fst (FrappeDB.perform (always null_answer) (Ready plain_client)
         (FrappeDB.GetDoc "Task" (Some "TASK-0009")) [])
  = Throw TypeError.
Proof.
  exact (X9_answered_with_null (always null_answer) plain_client
           (FrappeDB.GetDoc "Task" (Some "TASK-0009")) [] []
           (FrappeDB.request plain_client GET "/api/resource/Task/TASK-0009" ∅ NoData)
           null_answer eq_refl eq_refl eq_refl eq_refl).
Defined.

(** The whole of the object a catch handler of the document client builds. *)
Lemma normalized_fields fallback message r :
  nullish (data r) = false →
  ∃ o, FrappeDB.normalized fallback message r = Normal o
       ∧ o !! "httpStatusText" = Some (VStr (statusText r))
       ∧ o !! "message"
         = Some (if fallback then coalesce (prop (data r) "message") (VStr message)
                 else VStr message)
       ∧ ∀ k, k ≠ "httpStatus" → k ≠ "httpStatusText" → k ≠ "message" → k ≠ "exception" →
              o !! k = spread ∅ (data r) !! k.
Proof.
  intros Hbody. unfold FrappeDB.normalized.
  rewrite !read_prop by done.
  destruct fallback; unfold mbind, completion_bind; cbv beta iota;
    (eexists; split; [reflexivity|]);
    (split; [by rewrite !lookup_insert_ne, lookup_insert_eq by done|]);
    (split; [by rewrite !lookup_insert_ne, lookup_insert_eq by done|]);
    intros k ? ? ? ?; by rewrite !lookup_insert_ne by done.
Qed.

(** The properties an object spread copies from an object whose keys are
    distinct are the object's bindings. *)
Lemma spread_lookup (base : gmap string value) (fields : list (string * value)) k :
  NoDup fields.*1 →
  spread base (VObj fields) !! k
  = match assoc k fields with
    | Some v => Some v
    | None => base !! k
    end.
Proof.
  unfold spread. cbn [own_props]. revert base.
  induction fields as [|[k' v] fields IH]; intros base Hnodup; [done|].
  cbn in Hnodup. apply NoDup_cons in Hnodup as [Hfresh Hnodup].
  cbn [foldl assoc fst snd]. rewrite IH by done.
  destruct (String.eqb_spec k k') as [->|Hne].
  - assert (assoc k' fields = None) as ->.
    { clear -Hfresh. induction fields as [|[k v] fields IH]; [done|].
      cbn in *. apply not_elem_of_cons in Hfresh as [Hne Hfresh].
      destruct (String.eqb_spec k' k); [done|by apply IH]. }
    by rewrite lookup_insert_eq.
  - rewrite lookup_insert_ne by done. by destruct (assoc k fields).
Qed.

(** One request with the class's catch handler, rejected with a response:
    the request was the one the call issued, and the object thrown carries
    the status text and the handler's message. *)
Lemma failed_request_message net R (f : Response → completion value) fallback message
    log log' req r :
  snd (catch (and_then (send net R) f) (FrappeDB.handler fallback message) log)
  = log' ++ [req] →
  net log' req = Rejected (Some r) →
  nullish (data r) = false →
  log' = log
  ∧ ∃ o, fst (catch (and_then (send net R) f) (FrappeDB.handler fallback message) log)
         = Throw (Thrown o)
         ∧ o !! "httpStatusText" = Some (VStr (statusText r))
         ∧ o !! "message"
           = Some (if fallback then coalesce (prop (data r) "message") (VStr message)
                   else VStr message).
Proof.
  rewrite run_request. cbn [fst snd]. intros Hlog Hnet Hbody.
  apply app_inj_tail in Hlog as [<- <-]. split; [done|]. rewrite Hnet.
  destruct (normalized_fields fallback message r Hbody) as (o & Ho & Htext & Hmsg & _).
  exists o. unfold FrappeDB.handler. cbn [error_response]. by rewrite Ho.
Qed.

(** The catch handler of each call other than [getLastDoc]. *)
Lemma single_request_handler net c call :
  single_request call = true →
  ∃ req f,
    FrappeDB.perform net (Ready c) call
    = catch (and_then (send net req) f)
        (FrappeDB.handler
           match fixed_message call with Some _ => false | None => true end
           match fixed_message call with Some m => m | None => fallback_message call end).
Proof.
  intros Hsingle. destruct call; try discriminate; unfold_calls;
    eexists _, _; reflexivity.
Qed.

(** X10. Which message a failed call carries. When the last request of a
    call is rejected with a response whose body is not null, the object
    thrown has the response's status text as [httpStatusText], and its
    [message] is as follows. For [getDoc], [getDocList], [deleteDoc] and
    [getCount] it is the call's own fixed text, whatever the remote body
    says. For [createDoc], [createManyDocs], [updateDoc], [updateManyDocs],
    [submitDoc], [cancelDoc] and [renameDoc] it is the remote body's
    [message] when that is neither undefined nor null, and otherwise the
    call's own text ("There was an error while creating the document." and
    the like). For [getLastDoc] it is the fixed text of [getDocList] when
    the list request is the one rejected, and the fixed text of [getDoc]
    when the second request is. *)
Theorem X10_error_message (net : Transport) (c : AxiosInstance)
    (log log' : list Request) (req : Request) (r : Response) :
  net log' req = Rejected (Some r) →
  nullish (data r) = false →
  (∀ call,
      single_request call = true →
      snd (FrappeDB.perform net (Ready c) call log) = log' ++ [req] →
      ∃ o, fst (FrappeDB.perform net (Ready c) call log) = Throw (Thrown o)
           ∧ o !! "httpStatusText" = Some (VStr (statusText r))
           ∧ o !! "message"
             = Some match fixed_message call with
                    | Some m => VStr m
                    | None =>
                        coalesce (prop (data r) "message") (VStr (fallback_message call))
                    end)
  ∧ (∀ doctype args,
      snd (FrappeDB.getLastDoc net (Ready c) doctype args log) = log' ++ [req] →
      ∃ o, fst (FrappeDB.getLastDoc net (Ready c) doctype args log) = Throw (Thrown o)
           ∧ o !! "httpStatusText" = Some (VStr (statusText r))
           ∧ o !! "message"
             = Some (VStr (if bool_decide (length log' = length log)
                           then "There was an error while fetching the documents."
                           else "There was an error while fetching the document."))).
Proof.
  intros Hnet Hbody. split.
  - intros call Hcall.
    destruct (single_request_handler net c call Hcall) as (R & f & ->).
    intros Hlog.
    destruct (failed_request_message _ _ _ _ _ _ _ _ _ Hlog Hnet Hbody)
      as (_ & o & Ho & Htext & Hmsg).
    exists o. split; [done|]. split; [done|]. rewrite Hmsg.
    by destruct (fixed_message call).
  - intros doctype args.
    unfold FrappeDB.getLastDoc. rewrite run_bind.
    unfold FrappeDB.getDocList at 1 2. unfold via at 1 2.
    set (R1 := FrappeDB.request c GET _ _ _).
    pose proof (failed_request_message net R1 FrappeDB.res_data_data false
                  "There was an error while fetching the documents."
                  log log' req r) as Hfirst.
    rewrite run_request in *. cbn [fst snd] in Hfirst.
    assert (Hone : log ++ [R1] = log' ++ [req] → log' = log).
    { intros Hlog. by apply app_inj_tail in Hlog as [<- _]. }
    destruct (net log R1) as [res|r1] eqn:Hnet1.
    + assert (Hresolved : log ++ [R1] = log' ++ [req] → False).
      { intros Hlog. apply app_inj_tail in Hlog as [<- <-]. congruence. }
      destruct (FrappeDB.res_data_data res) as [docs|e] eqn:Hdocs.
      * rewrite run_bind. unfold sync at 1 2.
        destruct (read docs "length") as [len|e];
          [|cbn [snd]; intros Hlog; destruct (Hresolved Hlog)].
        destruct (gt_zero len);
          [|cbn [snd]; intros Hlog; destruct (Hresolved Hlog)].
        destruct (first docs ≫= _) as [name|];
          [|cbn [snd]; intros Hlog; destruct (Hresolved Hlog)].
        unfold FrappeDB.getDoc, via. intros Hlog.
        destruct (failed_request_message _ _ _ _ _ _ _ _ _ Hlog Hnet Hbody)
          as (-> & o & Ho & Htext & Hmsg).
        exists o. split; [done|]. split; [done|]. rewrite Hmsg.
        rewrite bool_decide_eq_false_2; [done|].
        rewrite length_app. cbn. lia.
      * apply read_throws in Hdocs as ->.
        cbn [snd FrappeDB.handler error_response].
        intros Hlog; destruct (Hresolved Hlog).
    + destruct (@handler_throws value false
                  "There was an error while fetching the documents." (AxiosError r1))
        as [e' He'].
      rewrite He' in *. cbn [fst snd]. intros Hlog.
      destruct (Hfirst Hlog Hnet Hbody) as (-> & o & Ho & Htext & Hmsg).
      exists o. split; [done|]. split; [done|]. rewrite Hmsg.
      by rewrite bool_decide_eq_true_2.
Qed.

Lemma X10_witness :
  (∃ o, fst (FrappeDB.perform (refuses permission_failure) (Ready plain_client)
               (FrappeDB.GetCount "Task" None None None) [])
        = Throw (Thrown o)
        ∧ o !! "httpStatusText" = Some (VStr "FORBIDDEN")
        ∧ o !! "message" = Some (VStr "There was an error while getting the count."))
  ∧ (∃ o, fst (FrappeDB.perform (refuses validation_failure) (Ready plain_client)
                 (FrappeDB.SubmitDoc "Task" "TASK-0009") [])
          = Throw (Thrown o)
          ∧ o !! "httpStatusText" = Some (VStr "EXPECTATION FAILED")
          ∧ o !! "message" = Some (VStr "There was an error while submitting the document.")).
Proof.
  split.
  - exact (proj1 (X10_error_message (refuses permission_failure) plain_client [] []
                    (FrappeDB.request plain_client GET EmptyString
                       (FrappeDB.getCount_params "Task" None None None) NoData)
                    permission_failure eq_refl eq_refl)
             (FrappeDB.GetCount "Task" None None None) eq_refl eq_refl).
  - exact (proj1 (X10_error_message (refuses validation_failure) plain_client [] []
                    (FrappeDB.command plain_client
                       [("cmd", VStr "frappe.client.submit");
                        ("doc", VObj [("doctype", VStr "Task");
                                      ("name", VStr "TASK-0009")])])
                    validation_failure eq_refl eq_refl)
             (FrappeDB.SubmitDoc "Task" "TASK-0009") eq_refl eq_refl).
Defined.

(** X11. The remote body's own fields survive in the error. When the
    request of a call other than [getLastDoc] is rejected with a response
    whose body is an object (with distinct keys), every field of the body
    other than [httpStatus], [httpStatusText], [message] and [exception] is
    a field of the object thrown, with the same value, and the object has no
    further fields. *)
Theorem X11_remote_fields_survive (net : Transport) (c : AxiosInstance)
    (call : FrappeDB.Call) (log log' : list Request) (req : Request) (r : Response)
    (fields : list (string * value)) :
  single_request call = true →
  net log' req = Rejected (Some r) →
  data r = VObj fields →
  NoDup fields.*1 →
  snd (FrappeDB.perform net (Ready c) call log) = log' ++ [req] →
  ∃ o, fst (FrappeDB.perform net (Ready c) call log) = Throw (Thrown o)
       ∧ ∀ k, k ∉ ["httpStatus"; "httpStatusText"; "message"; "exception"] →
              o !! k = assoc k fields.
Proof.
  intros Hcall Hnet Hdata Hnodup.
  assert (Hbody : nullish (data r) = false) by (by rewrite Hdata).
  destruct (single_request_shape net c call Hcall)
    as (R & f & fb & msg & -> & _).
  rewrite run_request. cbn [fst snd]. intros Hlog.
  apply app_inj_tail in Hlog as [<- <-]. rewrite Hnet.
  destruct (normalized_fields fb msg r Hbody) as (o & Ho & _ & _ & Hrest).
  exists o. unfold FrappeDB.handler. cbn [error_response]. rewrite Ho.
  split; [done|]. intros k Hk.
  rewrite Hrest by set_solver. rewrite Hdata, spread_lookup by done.
  rewrite lookup_empty. by destruct (assoc k fields).
Qed.

Lemma X11_witness :
  ∃ o, fst (FrappeDB.perform (refuses permission_failure) (Ready plain_client)
              (FrappeDB.CancelDoc "Task" "TASK-0009") [])
       = Throw (Thrown o)
       ∧ ∀ k, k ∉ ["httpStatus"; "httpStatusText"; "message"; "exception"] →
              o !! k = assoc k [("exc_type", VStr "PermissionError");
                                ("message", VStr "Not permitted");
                                ("_server_messages", VStr "[]")].
Proof.
  refine (X11_remote_fields_survive (refuses permission_failure) plain_client
            (FrappeDB.CancelDoc "Task" "TASK-0009") [] []
            (FrappeDB.command plain_client
               [("cmd", VStr "frappe.client.cancel");
                ("doctype", VStr "Task"); ("name", VStr "TASK-0009")])
            permission_failure _ eq_refl eq_refl eq_refl _ eq_refl).
  apply (bool_decide_unpack _). reflexivity.
Defined.

(** ** Document names in the request URL *)

Lemma bytes_app a b : bytes (a +:+ b) = bytes a ++ bytes b.
Proof.
  induction a as [|ch a IH]; [done|].
  change (ch :: bytes (a +:+ b) = ch :: (bytes a ++ bytes b)). by rewrite IH.
Qed.

Lemma append_cancel p a b : p +:+ a = p +:+ b → a = b.
Proof. induction p as [|ch p IH]; [done|]. cbn. intros [= H]. by apply IH. Qed.

(** A percent triple is [%] and two upper-case hexadecimal digits. *)
Lemma percent_bytes ch :
  Forall (fun b => uri_unreserved b = true ∨ b = "%"%char) (bytes (percent ch)).
Proof.
  destruct ch as [[|] [|] [|] [|] [|] [|] [|] [|]];
    (apply Forall_cons; split; [by right|]);
    (apply Forall_cons; split; [by left|]);
    (apply Forall_cons; split; [by left|]); apply Forall_nil_2.
Qed.

Lemma encodeURIComponent_bytes s :
  Forall (fun b => uri_unreserved b = true ∨ b = "%"%char) (bytes (encodeURIComponent s)).
Proof.
  induction s as [|ch s IH]; [apply Forall_nil_2|].
  cbn [encodeURIComponent]. rewrite bytes_app. apply Forall_app. split; [|done].
  destruct (uri_unreserved ch) eqn:Hch.
  - apply Forall_singleton. by left.
  - apply percent_bytes.
Qed.

(** X12. A document name is percent-encoded into one path segment: the URL
    of a [getDoc] request is [/api/resource/], the doctype as given, a
    slash, and a string in which every character is a letter, a digit, one
    of [-_.!~*'()], or [%]; so none of the delimiters [/ ? # & = +] nor a
    space comes from the name. The same holds for [updateDoc] with a
    non-empty name. *)
Theorem X12_name_is_one_segment (net : Transport) (c : AxiosInstance)
    (doctype docname : string) (log : list Request) :
  ∃ segment,
    snd (FrappeDB.getDoc net (Ready c) doctype (Some docname) log)
    = log ++ [FrappeDB.request c GET ("/api/resource/" +:+ doctype +:+ "/" +:+ segment)
                ∅ NoData]
    ∧ (∀ values, truthy_str docname = true →
         snd (FrappeDB.updateDoc net (Ready c) doctype (Some docname) values log)
         = log ++ [FrappeDB.request c PUT ("/api/resource/" +:+ doctype +:+ "/" +:+ segment)
                     ∅ (Json (VObj values))])
    ∧ Forall (fun b => uri_unreserved b = true ∨ b = "%"%char) (bytes segment)
    ∧ ∀ b, b ∈ bytes "/?#&=+ " → b ∉ bytes segment.
Proof.
  exists (encodeURIComponent docname).
  split; [unfold FrappeDB.getDoc, via; by rewrite run_request|].
  split.
  { intros values Htruthy. unfold FrappeDB.updateDoc, via. rewrite run_request.
    cbn [truthy_opt]. by rewrite Htruthy. }
  pose proof (encodeURIComponent_bytes docname) as Hsafe.
  split; [done|].
  intros b Hb Hin. rewrite Forall_forall in Hsafe.
  destruct (Hsafe b Hin) as [Hun| ->].
  - cbn in Hb. repeat (apply elem_of_cons in Hb as [->|Hb]; [discriminate|]).
    by apply elem_of_nil in Hb.
  - cbn in Hb. repeat (apply elem_of_cons in Hb as [Heq|Hb]; [discriminate|]).
    by apply elem_of_nil in Hb.
Qed.

Lemma percent_decode_percent ch rest :
  uri_unreserved ch = false →
  percent_decode (percent ch +:+ rest) = String ch <$> percent_decode rest.
Proof.
  destruct ch as [[|] [|] [|] [|] [|] [|] [|] [|]]; intros Hch;
    first [discriminate Hch | reflexivity].
Qed.

(** X13. The encoding of a document name loses nothing: decoding the
    percent triples of [encodeURIComponent name] gives [name] back, so two
    [getDoc] calls on the same doctype issue the same request only if they
    name the same document. *)
Theorem X13_names_round_trip :
  (∀ name, percent_decode (encodeURIComponent name) = Some name)
  ∧ (∀ net c doctype a b log,
       snd (FrappeDB.getDoc net (Ready c) doctype (Some a) log)
       = snd (FrappeDB.getDoc net (Ready c) doctype (Some b) log) →
       a = b).
Proof.
  assert (Hround : ∀ name, percent_decode (encodeURIComponent name) = Some name).
  { induction name as [|ch name IH]; [done|].
    cbn [encodeURIComponent].
    destruct (uri_unreserved ch) eqn:Hch.
    - change (String ch EmptyString +:+ encodeURIComponent name)
        with (String ch (encodeURIComponent name)).
      cbn [percent_decode].
      destruct (Ascii.eqb_spec ch "%") as [->|_]; [discriminate Hch|].
      by rewrite IH.
    - by rewrite percent_decode_percent, IH. }
  split; [done|].
  intros net c doctype a b log. unfold FrappeDB.getDoc, via.
  rewrite !run_request. cbn [snd default from_option id].
  intros Hlog. apply app_inv_head in Hlog. injection Hlog as Hurl.
  apply (append_cancel EmptyString), append_cancel, (append_cancel "/") in Hurl.
  apply (f_equal percent_decode) in Hurl. rewrite !Hround in Hurl. congruence.
Qed.

(** X14. What the two calls do with a missing name. [getDoc] without a name
    requests the doctype's resource followed by a slash and nothing more.
    [updateDoc] does the same for the empty name, but for the name [null]
    it does not encode anything: the URL ends in the four letters [null]. *)
Theorem X14_missing_names (net : Transport) (c : AxiosInstance) (doctype : string)
    (values : list (string * value)) (log : list Request) :
  snd (FrappeDB.getDoc net (Ready c) doctype None log)
  = log ++ [FrappeDB.request c GET ("/api/resource/" +:+ doctype +:+ "/") ∅ NoData]
  ∧ snd (FrappeDB.updateDoc net (Ready c) doctype (Some EmptyString) values log)
    = log ++ [FrappeDB.request c PUT ("/api/resource/" +:+ doctype +:+ "/") ∅
                (Json (VObj values))]
  ∧ snd (FrappeDB.updateDoc net (Ready c) doctype None values log)
    = log ++ [FrappeDB.request c PUT ("/api/resource/" +:+ doctype +:+ "/null") ∅
                (Json (VObj values))].
Proof.
  unfold FrappeDB.getDoc, FrappeDB.updateDoc, via. rewrite !run_request.
  repeat split; reflexivity.
Qed.

Lemma X12_witness :
  ∃ segment,
    snd (FrappeDB.getDoc unreachable (Ready plain_client) "Task" (Some "a/b c") [])
    = [] ++ [FrappeDB.request plain_client GET
               ("/api/resource/" +:+ "Task" +:+ "/" +:+ segment) ∅ NoData]
    ∧ (∀ values, truthy_str "a/b c" = true →
         snd (FrappeDB.updateDoc unreachable (Ready plain_client) "Task" (Some "a/b c")
                values [])
         = [] ++ [FrappeDB.request plain_client PUT
                    ("/api/resource/" +:+ "Task" +:+ "/" +:+ segment) ∅
                    (Json (VObj values))])
    ∧ Forall (fun b => uri_unreserved b = true ∨ b = "%"%char) (bytes segment)
    ∧ ∀ b, b ∈ bytes "/?#&=+ " → b ∉ bytes segment.
Proof. exact (X12_name_is_one_segment unreachable plain_client "Task" "a/b c" []). Defined.

Lemma X13_witness : percent_decode (encodeURIComponent "a/b c") = Some "a/b c".
Proof. exact (proj1 X13_names_round_trip "a/b c"). Defined.

(** ** More on [getLastDoc] *)

(** X16. What [getLastDoc] does with an odd answer to its list request.
    When the body has no [data] property, or the first element of the list
    is null, the call throws a [TypeError] after that one request (it does
    not return the empty object). When the first element has no [name], the
    call goes on exactly as [getDoc] without a name. *)
Theorem X16_getLastDoc_odd_answers (net : Transport) (c : AxiosInstance)
    (doctype : string) (args : option FrappeDB.GetLastDocArgs) (log : list Request)
    (res : Response) :
  let list_req :=
    FrappeDB.request c GET ("/api/resource/" +:+ doctype)
      (FrappeDB.getDocList_params (Some (FrappeDB.getLastDoc_query args))) NoData in
  net log list_req = Resolved res →
  nullish (data res) = false →
  (prop (data res) "data" = VUndefined →
     FrappeDB.getLastDoc net (Ready c) doctype args log
     = (Throw TypeError, log ++ [list_req]))
  ∧ (∀ doc docs,
       prop (data res) "data" = VArr (doc :: docs) → nullish doc = true →
       FrappeDB.getLastDoc net (Ready c) doctype args log
       = (Throw TypeError, log ++ [list_req]))
  ∧ (∀ doc docs,
       prop (data res) "data" = VArr (doc :: docs) → nullish doc = false →
       prop doc "name" = VUndefined →
       FrappeDB.getLastDoc net (Ready c) doctype args log
       = FrappeDB.getDoc net (Ready c) doctype None (log ++ [list_req])).
Proof.
  intros list_req Hnet Hbody.
  assert (Hlist : FrappeDB.getDocList net (Ready c) doctype
                    (Some (FrappeDB.getLastDoc_query args)) log
                  = (Normal (prop (data res) "data"), log ++ [list_req])).
  { unfold FrappeDB.getDocList, via. rewrite run_request. fold list_req.
    rewrite Hnet. unfold FrappeDB.res_data_data. by rewrite read_prop. }
  unfold FrappeDB.getLastDoc. rewrite run_bind, Hlist.
  split; [|split].
  - intros ->. reflexivity.
  - intros doc docs -> Hdoc. rewrite run_bind.
    change (sync (read (VArr (doc :: docs)) "length") (log ++ [list_req]))
      with (Normal (VNum (Z.of_nat (S (length docs)))), log ++ [list_req]).
    change (gt_zero (VNum (Z.of_nat (S (length docs))))) with true.
    cbn [first head default from_option id mbind option_bind].
    by destruct doc.
  - intros doc docs -> Hdoc Hname. rewrite run_bind.
    change (sync (read (VArr (doc :: docs)) "length") (log ++ [list_req]))
      with (Normal (VNum (Z.of_nat (S (length docs)))), log ++ [list_req]).
    change (gt_zero (VNum (Z.of_nat (S (length docs))))) with true.
    cbn [first head default from_option id mbind option_bind].
    by rewrite (member_prop doc "name"), Hname.
Qed.

Lemma X16_witness :
  FrappeDB.getLastDoc (always bare_answer) (Ready plain_client) "Task" None []
  = (Throw TypeError,
     [] ++ [FrappeDB.request plain_client GET ("/api/resource/" +:+ "Task")
              (FrappeDB.getDocList_params (Some (FrappeDB.getLastDoc_query None))) NoData]).
Proof.
  exact (proj1 (X16_getLastDoc_odd_answers (always bare_answer) plain_client "Task" None []
                  bare_answer eq_refl eq_refl) eq_refl).
Defined.

(** ** The two copies of the client factories *)

(** X17. The key-based factory and its copy without the header builder
    build the same client up to the two page-derived headers: where a
    [window] exists, the factory returns a client with the same base URL and
    credentials flag as the copy's, and the same value (or absence) of every
    header other than [X-Frappe-Site-Name] and [X-Frappe-CSRF-Token]. *)
Theorem X17_keys_factories_agree (env : Env) (w : Window) (url : string)
    (apiKey secretKey : option string) (headers : option (gmap string string)) :
  window env = Some w →
  ∃ c, getInstanceWithKeys env url apiKey secretKey headers = Normal c
       ∧ baseURL c = baseURL (Standalone.getInstanceWithKeys url apiKey secretKey headers)
       ∧ withCredentials c
         = withCredentials (Standalone.getInstanceWithKeys url apiKey secretKey headers)
       ∧ ∀ k, k ≠ "X-Frappe-Site-Name" → k ≠ "X-Frappe-CSRF-Token" →
              defaultHeaders c !! k
              = defaultHeaders (Standalone.getInstanceWithKeys url apiKey secretKey headers)
                !! k.
Proof.
  intros Hw.
  destruct (getCommonHeaders_window env w url headers Hw) as (hs & Hhs & Hlk).
  unfold getInstanceWithKeys. rewrite Hhs.
  eexists. split; [reflexivity|]. split; [reflexivity|]. split; [reflexivity|].
  intros k Hk1 Hk2. cbn [defaultHeaders Standalone.getInstanceWithKeys].
  rewrite !lookup_union, Hlk, lookup_union by done. unfold default_headers.
  destruct (default ∅ headers !! k) as [v|] eqn:Hcustom.
  - match goal with
    | |- Some v ∪ ?a ∪ ?b = Some v ∪ ?d => by destruct a, b, d
    end.
  - destruct (decide (k = "Accept")) as [->|Haccept];
      [by rewrite !lookup_insert_eq, lookup_insert_ne|].
    rewrite !(lookup_insert_ne _ "Accept") by done.
    destruct (decide (k = "Content-Type")) as [->|Hcontent];
      [by rewrite !lookup_insert_eq, lookup_insert_ne|].
    rewrite !(lookup_insert_ne _ "Content-Type") by done.
    rewrite lookup_empty. cbn. by destruct (_ !! k).
Qed.

Lemma X17_witness :
  ∃ c, getInstanceWithKeys foreign_env "https://erp.example.com" (Some "key")
         (Some "secret") None = Normal c
       ∧ baseURL c = Some "https://erp.example.com"
       ∧ withCredentials c = true
       ∧ ∀ k, k ≠ "X-Frappe-Site-Name" → k ≠ "X-Frappe-CSRF-Token" →
              defaultHeaders c !! k
              = defaultHeaders (Standalone.getInstanceWithKeys "https://erp.example.com"
                                  (Some "key") (Some "secret") None) !! k.
Proof.
  exact (X17_keys_factories_agree foreign_env _ "https://erp.example.com" (Some "key")
           (Some "secret") None eq_refl).
Defined.

(** X18. The login factory's copy without the header builder needs no
    [window]: whatever happens, it issues exactly one request, the login
    POST, with the two default headers only (the caller's headers are not
    sent with it). If the request's promise resolves with a response whose
    status is 200 and that has a [sid=] cookie, it returns a client whose
    [Cookie] is the first such cookie and whose [Content-Type] is
    [application/json], each unless the caller's headers say otherwise. If
    it resolves with another status or without such a cookie, it throws the
    login failure naming the URL. If the transport rejects the request (as
    it does for an answer outside 2xx, and when no answer arrives), it
    rethrows the transport's error as it is. *)
Theorem X18_standalone_login (net : Transport) (url : string)
    (username password : option string) (headers : option (gmap string string))
    (log : list Request) :
  let req := login_request url username password default_headers in
  let outcome :=
    Standalone.getInstanceWithCredentials net url username password headers log in
  snd outcome = log ++ [req]
  ∧ (∀ res, net log req = Resolved res →
       let sid := set_cookie res ≫= List.find (fun cookie => startsWith cookie "sid=") in
       (∀ cookie, status res = 200 → sid = Some cookie →
          ∃ c, fst outcome = Normal c
               ∧ baseURL c = Some url
               ∧ withCredentials c = false
               ∧ defaultHeaders c !! "Cookie"
                 = Some (default cookie (default ∅ headers !! "Cookie"))
               ∧ defaultHeaders c !! "Content-Type"
                 = Some (default "application/json"
                           (default ∅ headers !! "Content-Type")))
       ∧ (status res ≠ 200 ∨ sid = None →
          fst outcome = Throw (JsError ("Failed to login to " +:+ url))))
  ∧ (∀ r, net log req = Rejected r → fst outcome = Throw (AxiosError r)).
Proof.
  intros req outcome. subst outcome.
  split; [|split].
  - unfold Standalone.getInstanceWithCredentials. fold default_headers. fold req.
    rewrite run_bind. unfold send.
    destruct (net log req) as [res|r]; [|reflexivity].
    destruct (status res =? 200); [|reflexivity].
    destruct (set_cookie res ≫= List.find (fun cookie => startsWith cookie "sid="))
      as [cookie|]; [|reflexivity].
    by destruct (truthy_str cookie).
  - intros res Hnet sid.
    unfold Standalone.getInstanceWithCredentials. fold default_headers. fold req.
    rewrite (run_send_resolved _ _ res) by done. fold sid.
    split.
    + intros cookie Hstatus Hsid. rewrite Hstatus, Hsid. cbn [Z.eqb Pos.eqb].
      rewrite (startsWith_sid_truthy cookie) by (by eapply find_sid_startsWith).
      eexists. split; [reflexivity|]. split; [reflexivity|]. split; [reflexivity|].
      cbn [defaultHeaders]. rewrite !lookup_union.
      rewrite !lookup_insert_ne, lookup_insert_eq by done.
      rewrite (lookup_insert_ne _ "Accept" "Content-Type"), lookup_insert_eq by done.
      split.
      * by destruct (default ∅ headers !! "Cookie").
      * by destruct (default ∅ headers !! "Content-Type").
    + intros [Hstatus|Hsid].
      * apply Z.eqb_neq in Hstatus. by rewrite Hstatus.
      * rewrite Hsid. by destruct (status res =? 200).
  - intros r Hnet.
    unfold Standalone.getInstanceWithCredentials. fold default_headers. fold req.
    by rewrite (run_send_rejected _ _ r).
Qed.

Lemma X18_witness :
  (∃ c, fst (Standalone.getInstanceWithCredentials
               (always (session_response (Some ["sid=abc"])))
               "https://erp.example.com" (Some "admin") (Some "secret") None [])
        = Normal c
        ∧ baseURL c = Some "https://erp.example.com"
        ∧ withCredentials c = false
        ∧ defaultHeaders c !! "Cookie" = Some "sid=abc"
        ∧ defaultHeaders c !! "Content-Type" = Some "application/json")
  ∧ fst (Standalone.getInstanceWithCredentials (refuses unauthorized)
           "https://erp.example.com" (Some "admin") (Some "wrong") None [])
    = Throw (AxiosError (Some unauthorized)).
Proof.
  split.
  - exact (proj1 (proj1 (proj2 (X18_standalone_login
                    (always (session_response (Some ["sid=abc"])))
                    "https://erp.example.com" (Some "admin") (Some "secret") None []))
                    (session_response (Some ["sid=abc"])) eq_refl)
             "sid=abc" eq_refl eq_refl).
  - exact (proj2 (proj2 (X18_standalone_login (refuses unauthorized)
                    "https://erp.example.com" (Some "admin") (Some "wrong") None []))
             (Some unauthorized) eq_refl).
Defined.

(** X19. A login request that the transport rejects is not wrapped: both
    login factories, and the facade's [login] on top of the first, rethrow
    the transport's error as it is, after that one request. (The document
    client never does: see X7.) *)
Theorem X19_login_rejection_is_raw (env : Env) (net : Transport) (this : Frappe.t)
    (hs : gmap string string) (log : list Request) (r : option Response) :
  getCommonHeaders env (Frappe.url this) (Frappe.headers this) = Normal hs →
  net log (login_request (Frappe.url this) (Frappe.username this)
             (Frappe.password this) hs) = Rejected r →
  getInstanceWithCredentials env net (Frappe.url this) (Frappe.username this)
    (Frappe.password this) (Frappe.headers this) log
  = (Throw (AxiosError r),
     log ++ [login_request (Frappe.url this) (Frappe.username this)
               (Frappe.password this) hs])
  ∧ (truthy_opt (Frappe.username this) && truthy_opt (Frappe.password this) = true →
     Frappe.login env net this log
     = (Throw (AxiosError r),
        log ++ [login_request (Frappe.url this) (Frappe.username this)
                  (Frappe.password this) hs]))
  ∧ (∀ r',
       net log (login_request (Frappe.url this) (Frappe.username this)
                  (Frappe.password this) default_headers) = Rejected r' →
       Standalone.getInstanceWithCredentials net (Frappe.url this) (Frappe.username this)
         (Frappe.password this) (Frappe.headers this) log
       = (Throw (AxiosError r'),
          log ++ [login_request (Frappe.url this) (Frappe.username this)
                    (Frappe.password this) default_headers])).
Proof.
  intros Hhs Hnet.
  assert (Hfactory :
    getInstanceWithCredentials env net (Frappe.url this) (Frappe.username this)
      (Frappe.password this) (Frappe.headers this) log
    = (Throw (AxiosError r),
       log ++ [login_request (Frappe.url this) (Frappe.username this)
                 (Frappe.password this) hs])).
  { unfold getInstanceWithCredentials.
    by rewrite Hhs, run_sync_bind, (run_send_rejected _ _ r). }
  split; [done|]. split.
  - intros Hcred. unfold Frappe.login. by rewrite Hcred, run_bind, Hfactory.
  - intros r' Hnet'. unfold Standalone.getInstanceWithCredentials.
    fold default_headers. by rewrite (run_send_rejected _ _ r').
Qed.

Lemma X19_witness :
  Frappe.login foreign_env unreachable both_credentials []
  = (Throw (AxiosError None),
     [] ++ [login_request "https://erp.example.com" (Some "admin") (Some "secret")
              default_headers]).
Proof.
  exact (proj1 (proj2 (X19_login_rejection_is_raw foreign_env unreachable both_credentials
                         default_headers [] None eq_refl eq_refl)) eq_refl).
Defined.

(** ** The error of an upload *)

(** X20. When the request of an upload is rejected with a response whose
    body is an object (with distinct keys), the object thrown has the
    response's status text as [httpStatusText]; its [message] is the remote
    body's [message] when that is neither undefined nor null and "There was
    an error while uploading the file." otherwise; and every other field of
    the body except [httpStatus] and [exception] is a field of the object
    thrown, with the same value. *)
Theorem X20_upload_error (net : Transport) (c : AxiosInstance) (file : option File)
    (args : FrappeUpload.FileArgs) (apiPath : option string) (log log' : list Request)
    (req : Request) (r : Response) (fields : list (string * value)) :
  net log' req = Rejected (Some r) →
  data r = VObj fields →
  NoDup fields.*1 →
  snd (FrappeUpload.upload net (Ready c) file args apiPath log) = log' ++ [req] →
  ∃ o, fst (FrappeUpload.upload net (Ready c) file args apiPath log) = Throw (Thrown o)
       ∧ o !! "httpStatusText" = Some (VStr (statusText r))
       ∧ o !! "message"
         = Some (coalesce (default VUndefined (assoc "message" fields))
                   (VStr "There was an error while uploading the file."))
       ∧ ∀ k, k ∉ ["httpStatus"; "httpStatusText"; "message"; "exception"] →
              o !! k = assoc k fields.
Proof.
  intros Hnet Hdata Hnodup. unfold FrappeUpload.upload, via.
  rewrite run_upload_request. cbn [fst snd]. intros Hlog.
  apply app_inj_tail in Hlog as [<- <-]. rewrite Hnet.
  unfold FrappeUpload.handler. cbn [error_response].
  unfold FrappeUpload.normalized. rewrite Hdata.
  change (read (VObj fields) "message")
    with (Normal (default VUndefined (assoc "message" fields))).
  change (read (VObj fields) "exception")
    with (Normal (default VUndefined (assoc "exception" fields))).
  unfold mbind, completion_bind; cbv beta iota.
  eexists. split; [reflexivity|].
  split; [by rewrite !lookup_insert_ne, lookup_insert_eq by done|].
  split; [by rewrite !lookup_insert_ne, lookup_insert_eq by done|].
  intros k Hk. rewrite !lookup_insert_ne by set_solver.
  rewrite spread_lookup, lookup_empty by done. by destruct (assoc k fields).
Qed.

Lemma X20_witness :
  ∃ o, fst (FrappeUpload.upload (refuses permission_failure) (Ready plain_client) None
              (FrappeUpload.mkFileArgs None None None None None None None) None [])
       = Throw (Thrown o)
       ∧ o !! "httpStatusText" = Some (VStr "FORBIDDEN")
       ∧ o !! "message" = Some (VStr "Not permitted")
       ∧ ∀ k, k ∉ ["httpStatus"; "httpStatusText"; "message"; "exception"] →
              o !! k = assoc k [("exc_type", VStr "PermissionError");
                                ("message", VStr "Not permitted");
                                ("_server_messages", VStr "[]")].
Proof.
  refine (X20_upload_error (refuses permission_failure) plain_client None
            (FrappeUpload.mkFileArgs None None None None None None None) None [] []
            {| req_via := plain_client; req_method := POST;
               req_url := "/api/method/upload_file"; req_params := ∅;
               req_data := Multipart [];
               req_headers := <["Content-Type" := "multipart/form-data"]> ∅ |}
            permission_failure _ eq_refl eq_refl _ eq_refl).
  apply (bool_decide_unpack _). reflexivity.
Defined.

(** ** From the facade to the requests *)

Lemma upload_requests net c file args apiPath log :
  ∃ req, snd (FrappeUpload.upload net (Ready c) file args apiPath log) = log ++ [req]
         ∧ req_via req = c.
Proof.
  unfold FrappeUpload.upload, via. rewrite run_upload_request.
  eexists. split; reflexivity.
Qed.

(** X21. Every request made through a facade configured with keys is
    authorized. In an environment that has a [window], when apiKey and
    secretKey are both non-empty, every request that a call of the document
    client or an upload issues on the constructed facade's client goes to
    the configured base URL, with credentials enabled, and carries the
    [Authorization] header [token <apiKey>:<secretKey>] (or the caller's own
    [Authorization] header, if the configuration has one); and every such
    call issues at least one request. *)
Theorem X21_keyed_facade_requests (env : Env) (w : Window) (options : FrappeOptions)
    (k s : string) :
  window env = Some w →
  opt_apiKey options = Some k → truthy_str k = true →
  opt_secretKey options = Some s → truthy_str s = true →
  let authorized req :=
    baseURL (req_via req) = Some (opt_url options)
    ∧ withCredentials (req_via req) = true
    ∧ defaultHeaders (req_via req) !! "Authorization"
      = Some (default ("token " +:+ k +:+ ":" +:+ s)
                (default ∅ (opt_headers options) !! "Authorization")) in
  ∃ this,
    Frappe.constructor env options = Normal this
    ∧ (∀ net call log,
         ∃ new, snd (FrappeDB.perform net (Frappe.client this) call log) = log ++ new
                ∧ new ≠ [] ∧ Forall authorized new)
    ∧ (∀ net file args apiPath log,
         ∃ req, snd (FrappeUpload.upload net (Frappe.client this) file args apiPath log)
                = log ++ [req]
                ∧ authorized req).
Proof.
  intros Hw Hk Hkt Hs Hst authorized.
  destruct (getCommonHeaders_window env w (opt_url options) (opt_headers options) Hw)
    as (hs & Hhs & _).
  set (c := {| baseURL := Some (opt_url options);
               defaultHeaders :=
                 hs ∪ <["Authorization" := "token " +:+ k +:+ ":" +:+ s]> ∅;
               withCredentials := true |}).
  assert (Hc : ∀ req, req_via req = c → authorized req).
  { intros req Hreq. unfold authorized. rewrite Hreq.
    split; [done|]. split; [done|]. cbn [defaultHeaders c].
    rewrite lookup_under_spread.
    by rewrite (getCommonHeaders_passes _ _ _ _ "Authorization" Hhs). }
  exists (Frappe.set_instance
            {| Frappe.url := opt_url options;
               Frappe.username := opt_username options;
               Frappe.password := opt_password options;
               Frappe.apiKey := opt_apiKey options;
               Frappe.secretKey := opt_secretKey options;
               Frappe.headers := opt_headers options;
               Frappe.instance := NoClient |} (Ready c)).
  split.
  { unfold Frappe.constructor, getInstanceWithKeys. cbn.
    rewrite Hk, Hs. cbn. rewrite Hkt, Hst. cbn. by rewrite Hhs. }
  cbn [Frappe.client Frappe.set_instance Frappe.instance]. split.
  - intros net call log.
    destruct (perform_requests net c call log) as (new & Hlog & Hvia & Hlen).
    exists new. split; [done|]. split.
    + intros ->. cbn in Hlen. by destruct Hlen as [|[_ ?]].
    + eapply Forall_impl; [exact Hvia|]. intros req. apply Hc.
  - intros net file args apiPath log.
    destruct (upload_requests net c file args apiPath log) as (req & Hlog & Hvia).
    exists req. split; [done|]. by apply Hc.
Qed.

Lemma X21_witness :
  ∃ this,
    Frappe.constructor browser_env (keyed_options None) = Normal this
    ∧ (∀ net call log,
         ∃ new, snd (FrappeDB.perform net (Frappe.client this) call log) = log ++ new
                ∧ new ≠ []
                ∧ Forall (fun req =>
                     baseURL (req_via req) = Some "https://erp.example.com"
                     ∧ withCredentials (req_via req) = true
                     ∧ defaultHeaders (req_via req) !! "Authorization"
                       = Some "token key:secret") new)
    ∧ (∀ net file args apiPath log,
         ∃ req, snd (FrappeUpload.upload net (Frappe.client this) file args apiPath log)
                = log ++ [req]
                ∧ baseURL (req_via req) = Some "https://erp.example.com"
                ∧ withCredentials (req_via req) = true
                ∧ defaultHeaders (req_via req) !! "Authorization"
                  = Some "token key:secret").
Proof.
  exact (X21_keyed_facade_requests browser_env _ (keyed_options None) "key" "secret"
           eq_refl eq_refl eq_refl eq_refl eq_refl).
Defined.

(** X22. Every request made through a facade after a login that returned
    carries a session: every request that a call of the document client or
    an upload issues on the returned facade's client goes to the facade's
    URL and has a [Cookie] header, which is a [sid=] cookie unless the
    configuration has a [Cookie] header of its own. *)
Theorem X22_requests_after_login (env : Env) (net : Transport) (this this' : Frappe.t)
    (log log' : list Request) :
  Frappe.login env net this log = (Normal this', log') →
  let in_session req :=
    baseURL (req_via req) = Some (Frappe.url this)
    ∧ ∃ cookie, defaultHeaders (req_via req) !! "Cookie" = Some cookie
                ∧ (default ∅ (Frappe.headers this) !! "Cookie" = None →
                   startsWith cookie "sid=" = true) in
  (∀ net2 call log2,
      ∃ new, snd (FrappeDB.perform net2 (Frappe.client this') call log2) = log2 ++ new
             ∧ Forall in_session new)
  ∧ (∀ net2 file args apiPath log2,
      ∃ req, snd (FrappeUpload.upload net2 (Frappe.client this') file args apiPath log2)
             = log2 ++ [req]
             ∧ in_session req).
Proof.
  intros Hlogin in_session.
  destruct (login_returns_inv env net this this' log log' Hlogin)
    as (hs & res & cookie & c & _ & _ & _ & _ & _ & Hsid & -> & Hbase & _ & Hcookie).
  assert (Hc : ∀ req, req_via req = c → in_session req).
  { intros req Hreq. unfold in_session. rewrite Hreq.
    split; [done|]. eexists. split; [exact Hcookie|].
    by intros ->. }
  cbn [Frappe.client Frappe.set_instance Frappe.instance]. split.
  - intros net2 call log2.
    destruct (perform_requests net2 c call log2) as (new & Hlog & Hvia & _).
    exists new. split; [done|].
    eapply Forall_impl; [exact Hvia|]. intros req. apply Hc.
  - intros net2 file args apiPath log2.
    destruct (upload_requests net2 c file args apiPath log2) as (req & Hlog & Hvia).
    exists req. split; [done|]. by apply Hc.
Qed.

Lemma X22_witness :
  ∃ req,
    snd (FrappeUpload.upload unreachable
           (Ready {| baseURL := Some "https://erp.example.com";
                     defaultHeaders :=
                       <["X-Frappe-Site-Name" := "erp.example.com"]> default_headers
                       ∪ <["Cookie" := "sid=abc"]> ∅;
                     withCredentials := false |})
           None (FrappeUpload.mkFileArgs None None None None None None None) None [])
    = [] ++ [req]
    ∧ baseURL (req_via req) = Some "https://erp.example.com"
    ∧ ∃ cookie, defaultHeaders (req_via req) !! "Cookie" = Some cookie
                ∧ (@None string = None → startsWith cookie "sid=" = true).
Proof.
  exact (proj2 (X22_requests_after_login browser_env
                  (always (session_response (Some ["sid=abc"])))
                  both_credentials
                  (Frappe.set_instance both_credentials
                     (Ready {| baseURL := Some "https://erp.example.com";
                               defaultHeaders :=
                                 <["X-Frappe-Site-Name" := "erp.example.com"]>
                                   default_headers
                                 ∪ <["Cookie" := "sid=abc"]> ∅;
                               withCredentials := false |}))
                  [] _ eq_refl)
           unreachable None
           (FrappeUpload.mkFileArgs None None None None None None None) None []).
Defined.
